(** * ValidatorContextBackwardsCompatibilityMixin: a shallow embedding

    The mixin of [validator_context_backport_mixin.py] patches the class of a
    validator at run time: [set_context] captures the class's [__call__],
    switches [requires_context] off and rebinds [__call__] to a
    [functools.partialmethod] that supplies the delivered context by keyword.

    The development has three layers:
    - a fragment of the Python object model (class attribute lookup along the
      MRO, the descriptor protocol for functions and partialmethods, call-time
      argument binding, [threading.Lock]);
    - the methods of the mixin, written once as programs over atomic
      instructions, with a sequential runner and an interleaving semantics;
    - the properties of [set_context]. *)

From stdpp Require Import gmap strings list fin_maps.

(* ===================================================================== *)
(** ** Python values *)
(* ===================================================================== *)

Abbreviation cname := string (only parsing).

(** Exceptions the modelled code can raise. [ValidationError] stands for
    whatever a validator body itself raises. *)
Inductive exn := IndexError | AttributeError | TypeError | ValidationError.

(** The three ways a call can end: it returns, it raises, or it blocks
    forever on a lock that is never released. *)
Inductive outcome (A : Type) : Type :=
| Returns (a : A)
| Raises (e : exn)
| Blocks.
Arguments Returns {A} a.
Arguments Raises {A} e.
Arguments Blocks {A}.

(** Data that travels as call arguments and results: the value under
    validation, the serializer field delivered as context, the validator
    instance itself. Objects are opaque and identified by address. *)
Inductive pyval :=
| PyNone
| PyBool (b : bool)
| PyInt (n : Z)
| PyStr (s : string)
| PyObj (addr : nat).

(** A function object: the part of its code object the mixin inspects
    ([co_argcount], [co_varnames]: parameters first, then the other local
    variables) and its body as a function of the bound parameters, in
    declaration order. Parameters are plain positional-or-keyword ones
    without defaults. *)
Record pyfunc := {
  fn_name : string;
  co_argcount : nat;
  co_varnames : list string;
  fn_body : list pyval → outcome pyval
}.

(** What a class attribute can hold. [VUnboundPartial g kw] is the function
    [_method] that [partialmethod._make_unbound_method] builds: it is what
    reading a [partialmethod] through the class yields. [VTypeCall c] is
    the method-wrapper [type.__call__] bound to class [c]: it is what
    [c.__call__] yields when no class on the MRO of [c] defines
    [__call__]. *)
Inductive value :=
| VData (d : pyval)
| VLock (id : nat)
| VFunc (f : pyfunc)
| VPartialMethod (g : value) (kw : gmap string pyval)
| VUnboundPartial (g : value) (kw : gmap string pyval)
| VTypeCall (c : string).

Abbreviation VNone := (VData PyNone).
Abbreviation VFalse := (VData (PyBool false)).
Abbreviation VTrue := (VData (PyBool true)).

(** Python truth value. Locks, functions, partialmethods and
    method-wrappers define neither [__bool__] nor [__len__]. Reading an
    attribute through an instance binds functions to bound methods and
    partialmethods to partial objects, which are true as well, so the same
    test serves [self.attr] and [cls.attr]. *)
Definition truthy (v : value) : bool :=
  match v with
  | VData PyNone => false
  | VData (PyBool b) => b
  | VData (PyInt n) => negb (n =? 0)%Z
  | VData (PyStr s) => negb (String.eqb s "")
  | VData (PyObj _) => true
  | VLock _ | VFunc _ | VPartialMethod _ _ | VUnboundPartial _ _ => true
  | VTypeCall _ => true
  end.

(** [v.__get__(None, cls)]: a function read through its class is the
    function itself; a partialmethod whose underlying callable [__get__]
    returns unchanged falls back to [_make_unbound_method]; data, locks
    and method-wrappers are no descriptors. *)
Definition class_get (v : value) : value :=
  match v with
  | VPartialMethod g kw => VUnboundPartial g kw
  | _ => v
  end.

(** [v.__code__.co_varnames]. [_method] is declared in functools as
    a function of [cls_or_self], star-[args] and star-star-[keywords]. A
    method-wrapper has no [__code__]. *)
Definition code_varnames (v : value) : option (list string) :=
  match v with
  | VFunc f => Some (co_varnames f)
  | VUnboundPartial _ _ => Some ["cls_or_self"; "args"; "keywords"]
  | _ => None
  end.

(** [functools.partialmethod] of [func] with keywords [kw]: it refuses
    ([None], a [TypeError]) what is neither callable nor a descriptor and
    flattens a partialmethod argument. *)
Definition partialmethod (func : value) (kw : gmap string pyval) : option value :=
  match func with
  | VFunc _ | VUnboundPartial _ _ | VTypeCall _ => Some (VPartialMethod func kw)
  | VPartialMethod g kws => Some (VPartialMethod g (kw ∪ kws))
  | VData _ | VLock _ => None
  end.

(* ===================================================================== *)
(** ** Calls *)
(* ===================================================================== *)

Definition params (f : pyfunc) : list string := take (co_argcount f) (co_varnames f).

(** Binding of a call with positional arguments [pos] and keywords [kw] to
    the parameters [ps]: positional arguments fill the parameters from the
    left, keywords fill the rest. Too many positionals, a keyword that names
    a parameter already filled, a keyword that names no parameter and a
    parameter left unfilled are all [TypeError]. *)
Definition bind_args (ps : list string) (pos : list pyval) (kw : gmap string pyval)
  : option (list pyval) :=
  if bool_decide (length ps < length pos) then None
  else if bool_decide (list_to_set (take (length pos) ps) ∩ dom kw ≠ (∅ : gset string)) then None
  else if bool_decide (dom kw ⊆ (list_to_set ps : gset string)) then
    rest ← mapM (λ p, kw !! p) (drop (length pos) ps); Some (pos ++ rest)
  else None.

Definition call_function (f : pyfunc) (pos : list pyval) (kw : gmap string pyval)
  : outcome pyval :=
  match bind_args (params f) pos kw with
  | Some args => fn_body f args
  | None => Raises TypeError
  end.

(** A plain call of [v] with positional arguments [pos] and keywords [kw].
    [_method] merges the keywords stored in the partialmethod under the ones
    of the call: [{**self.keywords, **keywords}]. Calling [VTypeCall c]
    would make an instance of [c]; objects are not allocated here, the call
    is refused like that of a non-callable, and no statement below makes
    one. *)
Fixpoint call_callable (v : value) (pos : list pyval) (kw : gmap string pyval)
  : outcome pyval :=
  match v with
  | VFunc f => call_function f pos kw
  | VUnboundPartial g kws =>
      match pos with
      | [] => Raises TypeError
      | _ :: _ => call_callable g pos (kw ∪ kws)
      end
  | _ => Raises TypeError
  end.

(* ===================================================================== *)
(** ** The world: classes, locks, history *)
(* ===================================================================== *)

(** Class [__dict__]s are kept in one finite map keyed by class and attribute
    name; the class hierarchy (for each class, its linearised proper
    ancestors) is fixed. [next_lock] numbers the [threading.Lock] objects
    created so far, [held] is the set of those currently acquired.
    [capture_log] and [inside] are history variables: the captures of an
    original entry point that took place, and the classes whose guarded
    block is being executed (one entry per thread inside). *)
Record world := {
  bases : gmap string (list string);
  dicts : gmap (string * string) value;
  next_lock : nat;
  held : gset nat;
  capture_log : list (string * value);
  inside : list string
}.

Definition own_attr (w : world) (c : cname) (a : string) : option value :=
  dicts w !! (c, a).

(** The first class of [l] whose own [__dict__] has [a]. *)
Fixpoint find_attr (d : gmap (string * string) value) (l : list cname) (a : string)
  : option value :=
  match l with
  | [] => None
  | c :: l' =>
      match d !! (c, a) with
      | Some v => Some v
      | None => find_attr d l' a
      end
  end.

(** Attribute lookup along the MRO of [c], before the descriptor protocol,
    in hierarchy [b] and dictionaries [d]. *)
Definition lookup_in (b : gmap string (list string)) (d : gmap (string * string) value)
    (c : cname) (a : string) : option value :=
  bs ← b !! c; find_attr d (c :: bs) a.

Definition mro_lookup (w : world) (c : cname) (a : string) : option value :=
  lookup_in (bases w) (dicts w) c a.

Definition set_dicts (d : gmap (string * string) value) (w : world) : world :=
  {| bases := bases w; dicts := d; next_lock := next_lock w; held := held w;
     capture_log := capture_log w; inside := inside w |}.

(** [cls.a = v] writes the class's own [__dict__]. *)
Definition setattr_world (c : cname) (a : string) (v : value) (w : world) : world :=
  set_dicts (<[(c, a) := v]> (dicts w)) w.

Definition alloc_lock (w : world) : world :=
  {| bases := bases w; dicts := dicts w; next_lock := S (next_lock w); held := held w;
     capture_log := capture_log w; inside := inside w |}.

Definition log_capture (c : cname) (v : value) (w : world) : world :=
  {| bases := bases w; dicts := dicts w; next_lock := next_lock w; held := held w;
     capture_log := capture_log w ++ [(c, v)]; inside := inside w |}.

Fixpoint remove_one (c : cname) (l : list cname) : list cname :=
  match l with
  | [] => []
  | x :: l' => if String.eqb c x then l' else x :: remove_one c l'
  end.

(** [l.acquire()] succeeded, entering the guarded block of class [c]. *)
Definition acquire (c : cname) (l : nat) (w : world) : world :=
  {| bases := bases w; dicts := dicts w; next_lock := next_lock w;
     held := {[l]} ∪ held w;
     capture_log := capture_log w; inside := c :: inside w |}.

(** [l.release()], leaving the guarded block of class [c]. *)
Definition release (c : cname) (l : nat) (w : world) : world :=
  {| bases := bases w; dicts := dicts w; next_lock := next_lock w;
     held := held w ∖ {[l]};
     capture_log := capture_log w; inside := remove_one c (inside w) |}.

(** Number of times the capture step ran for class [c]. *)
Definition captures (w : world) (c : cname) : nat :=
  length (filter (λ e, e.1 = c) (capture_log w)).

(** Number of threads inside the guarded block of class [c]. *)
Definition threads_inside (w : world) (c : cname) : nat :=
  length (filter (λ x, x = c) (inside w)).

(* ===================================================================== *)
(** ** Programs over atomic instructions *)
(* ===================================================================== *)

(** The atomic steps of the mixin's methods. Between two of them another
    thread may run. [IAcquire] and [IRelease] also maintain the history
    variable [inside]; [ICapture] is the store of
    [_save_original_dunder_call] together with its entry in [capture_log]. *)
Inductive instr : Type → Type :=
| ILookup (c : cname) (a : string) : instr (option value)
| ISetAttr (c : cname) (a : string) (v : value) : instr unit
| ICapture (c : cname) (v : value) : instr unit
| INewLock : instr value
| IAcquire (c : cname) (l : nat) : instr unit
| IRelease (c : cname) (l : nat) : instr unit.

(** One atomic step; [None] when the thread cannot proceed (the lock is
    taken). [threading.Lock] is not re-entrant. *)
Definition exec {B : Type} (i : instr B) (w : world) : option (world * B) :=
  match i in instr B return option (world * B) with
  | ILookup c a => Some (w, mro_lookup w c a)
  | ISetAttr c a v => Some (setattr_world c a v w, ())
  | ICapture c v =>
      Some (log_capture c v (setattr_world c "_original_dunder_call" v w), ())
  | INewLock => Some (alloc_lock w, VLock (next_lock w))
  | IAcquire c l =>
      if bool_decide (l ∈ held w) then None else Some (acquire c l w, ())
  | IRelease c l => Some (release c l w, ())
  end.

Inductive prog (A : Type) : Type :=
| Ret (a : A)
| Throw (e : exn)
| Act {B : Type} (i : instr B) (k : B → prog A).
Arguments Ret {A} a.
Arguments Throw {A} e.
Arguments Act {A B} i k.

Fixpoint prog_bind {A B : Type} (f : A → prog B) (p : prog A) : prog B :=
  match p with
  | Ret a => f a
  | Throw e => Throw e
  | Act i k => Act i (λ b, prog_bind f (k b))
  end.

#[global] Instance prog_mret : MRet prog := λ A a, Ret a.
#[global] Instance prog_mbind : MBind prog := λ A B f p, prog_bind f p.

(** [try: p finally: cleanup]. *)
Fixpoint finally {A : Type} (p : prog A) (cleanup : prog unit) : prog A :=
  match p with
  | Ret a => prog_bind (λ _, Ret a) cleanup
  | Throw e => prog_bind (λ _, Throw e) cleanup
  | Act i k => Act i (λ b, finally (k b) cleanup)
  end.

(** A library call that either returns or raises [e]. *)
Definition or_raise {A : Type} (e : exn) (o : option A) : prog A :=
  match o with
  | Some a => Ret a
  | None => Throw e
  end.

(** What the metaclass [type] offers for an attribute that no class on the
    MRO has: its own [__call__], bound to the class. *)
Definition metaclass_attr (cls : cname) (a : string) : option value :=
  if String.eqb a "__call__" then Some (VTypeCall cls) else None.

(** [cls.a]: lookup along the MRO, then the descriptor protocol; an
    attribute that is not found is looked for on the metaclass. *)
Definition getattr_cls (cls : cname) (a : string) : prog value :=
  Act (ILookup cls a) (λ o,
    match o with
    | Some v => Ret (class_get v)
    | None => or_raise AttributeError (metaclass_attr cls a)
    end).

Definition setattr_cls (cls : cname) (a : string) (v : value) : prog unit :=
  Act (ISetAttr cls a v) Ret.

(** [threading.Lock()]. *)
Definition new_lock : prog value := Act INewLock Ret.

(** [with g: body] for a lock [g] used by the guarded block of class [cls];
    anything in the model that is not a lock is no context manager. *)
Definition with_guard {A : Type} (cls : cname) (g : value) (body : prog A) : prog A :=
  match g with
  | VLock l =>
      Act (IAcquire cls l) (λ _, finally body (Act (IRelease cls l) Ret))
  | _ => Throw TypeError
  end.

(** [t[i]] on a tuple. *)
Definition tuple_index {A : Type} (t : list A) (i : nat) : prog A :=
  or_raise IndexError (t !! i).

(** [v.__code__.co_varnames]. *)
Definition getattr_co_varnames (v : value) : prog (list string) :=
  or_raise AttributeError (code_varnames v).

(* ===================================================================== *)
(** ** The mixin *)
(* ===================================================================== *)

(** A validator instance: its class and its address. Instances carry no
    attributes of their own, so [self.a] resolves on [type(self)]. *)
Record instance := { inst_class : cname; inst_addr : nat }.

Definition self_arg (self : instance) : pyval := PyObj (inst_addr self).

Module Mixin.

(** The mixin's own class body: both slots start as [None]. *)
Definition class_name : cname := "ValidatorContextBackwardsCompatibilityMixin".

Definition class_body : list (string * value) :=
  [("_original_dunder_call", VNone); ("_dunder_call_lock", VNone)].

(** The [classproperty]: evaluated on the class of the instance. *)
Definition _dunder_call_modification_guard (cls : cname) : prog value :=
  lock ← getattr_cls cls "_dunder_call_lock";
  (if truthy lock then mret ()
   else l ← new_lock; setattr_cls cls "_dunder_call_lock" l);;
  getattr_cls cls "_dunder_call_lock".

Definition _provide_context_to_dunder_call (cls : cname) (context : pyval) : prog unit :=
  original ← getattr_cls cls "_original_dunder_call";
  setattr_cls cls "__call__" original;;
  call ← getattr_cls cls "__call__";
  names ← getattr_co_varnames call;
  context_param_name ← tuple_index names 2;
  call ← getattr_cls cls "__call__";
  wrapped ← or_raise TypeError (partialmethod call {[context_param_name := context]});
  setattr_cls cls "__call__" wrapped.

Definition _save_original_dunder_call (cls : cname) : prog unit :=
  call ← getattr_cls cls "__call__";
  Act (ICapture cls call) Ret.

Definition _disable_requires_context_flag (cls : cname) : prog unit :=
  setattr_cls cls "requires_context" VFalse.

Definition set_context (self : instance) (context : pyval) : prog unit :=
  let cls := inst_class self in
  guard ← _dunder_call_modification_guard cls;
  with_guard cls guard (
    original ← getattr_cls cls "_original_dunder_call";
    (if truthy original then mret ()
     else _save_original_dunder_call cls;;
          _disable_requires_context_flag cls);;
    _provide_context_to_dunder_call cls context).

End Mixin.

(* ===================================================================== *)
(** ** Sequential execution *)
(* ===================================================================== *)

(** A program run alone, to its end. *)
Fixpoint run {A : Type} (p : prog A) (w : world) : world * outcome A :=
  match p with
  | Ret a => (w, Returns a)
  | Throw e => (w, Raises e)
  | Act i k =>
      match exec i w with
      | Some (w', b) => run (k b) w'
      | None => (w, Blocks)
      end
  end.

(** [self.set_context(context)], called from one thread. *)
Definition set_context (self : instance) (context : pyval) (w : world)
  : world * outcome unit :=
  run (Mixin.set_context self context) w.

(** A sequence of deliveries on one instance, whatever each one returns. *)
Fixpoint deliveries (self : instance) (ctxs : list pyval) (w : world) : world :=
  match ctxs with
  | [] => w
  | ctx :: rest => deliveries self rest (set_context self ctx w).1
  end.

(** [self(pos..., kw...)]: [__call__] is looked up on the type and bound to
    the instance. A bound function receives [self] first; the partial
    object a partialmethod binds to merges its keywords under the call's. *)
Definition call_instance (w : world) (self : instance)
    (pos : list pyval) (kw : gmap string pyval) : outcome pyval :=
  match mro_lookup w (inst_class self) "__call__" with
  | Some (VFunc f) => call_function f (self_arg self :: pos) kw
  | Some (VPartialMethod g kws) => call_callable g (self_arg self :: pos) (kw ∪ kws)
  | Some (VUnboundPartial g kws) => call_callable g (self_arg self :: pos) (kw ∪ kws)
  | _ => Raises TypeError
  end.

(* ===================================================================== *)
(** ** Threads *)
(* ===================================================================== *)

Module Threads.

(** Threads share the world; each one is what it still has to run. *)
Record config := { shared : world; pool : list (prog unit) }.

(** One thread performs its next atomic instruction. A thread whose next
    instruction cannot run (a taken lock) and a finished thread have no
    step. *)
Inductive step : config → config → Prop :=
| step_thread (w w' : world) (ts : list (prog unit)) (t : nat)
    (B : Type) (i : instr B) (k : B → prog unit) (b : B) :
    ts !! t = Some (Act i k) →
    exec i w = Some (w', b) →
    step {| shared := w; pool := ts |} {| shared := w'; pool := <[t := k b]> ts |}.

Definition steps : config → config → Prop := rtc step.

(** The scheduler picks thread [t]; nothing happens when [t] has no step. *)
Definition fire (t : nat) (cfg : config) : config :=
  match pool cfg !! t with
  | Some (Act i k) =>
      match exec i (shared cfg) with
      | Some (w', b) => {| shared := w'; pool := <[t := k b]> (pool cfg) |}
      | None => cfg
      end
  | _ => cfg
  end.

Definition schedule (ts : list nat) (cfg : config) : config :=
  foldl (λ c t, fire t c) cfg ts.

Definition returned (p : prog unit) : bool :=
  match p with
  | Ret _ => true
  | _ => false
  end.

(** [n] threads, each delivering its own context to its own instance of
    class [cls]: thread [t] calls [set_context(ctx_t)] with [ctx_t] the
    object at address [t]. *)
Definition deliver_all (cls : cname) (n : nat) (w : world) : config :=
  {| shared := w;
     pool := (λ t, Mixin.set_context {| inst_class := cls; inst_addr := t |} (PyObj t))
               <$> seq 0 n |}.

End Threads.

(* ===================================================================== *)
(** ** What a delivery does, in closed form *)
(* ===================================================================== *)

(** The guard of [cls] can be taken: the lock the class sees is free, or
    there is none yet and the one about to be created is free. *)
Definition guard_ready (w : world) (cls : cname) : bool :=
  match mro_lookup w cls "_dunder_call_lock" with
  | Some (VLock l) => bool_decide (l ∉ held w)
  | Some g => negb (truthy g) && bool_decide (next_lock w ∉ held w)
  | None => false
  end.

(** The test [not self._original_dunder_call] succeeds: nothing captured. *)
Definition unpatched (w : world) (cls : cname) : bool :=
  match mro_lookup w cls "_original_dunder_call" with
  | Some o => negb (truthy o)
  | None => false
  end.

(** The value of the expression [cls.a]: the attribute found along the
    MRO, bound the way the class binds it, or else what the metaclass
    supplies; [None] when the expression raises [AttributeError]. *)
Definition class_getattr (w : world) (cls : cname) (a : string) : option value :=
  match mro_lookup w cls a with
  | Some v => Some (class_get v)
  | None => metaclass_attr cls a
  end.

(** The entry point [cls._original_dunder_call] stands for once the
    first-delivery branch is through: the captured one, or else the current
    [cls.__call__], which is about to be captured. *)
Definition original_entry (w : world) (cls : cname) : option value :=
  o ← mro_lookup w cls "_original_dunder_call";
  if truthy o then Some (class_get o)
  else class_getattr w cls "__call__".

(** [e.__code__.co_varnames[2]], or the exception it raises. *)
Definition context_slot (e : value) : exn + string :=
  match code_varnames e with
  | None => inl AttributeError
  | Some names =>
      match names !! 2 with
      | None => inl IndexError
      | Some n => inr n
      end
  end.

(** What [_provide_context_to_dunder_call] leaves in [__call__] for the
    entry point [e], and how it ends. *)
Definition rebound (e : value) (ctx : pyval) : value :=
  match context_slot e with
  | inr n => VPartialMethod e {[n := ctx]}
  | inl _ => e
  end.

Definition delivery_outcome (e : value) : outcome unit :=
  match context_slot e with
  | inr _ => Returns ()
  | inl x => Raises x
  end.

(** The three stages of a delivery as world transformers. *)
Definition ensure_guard (cls : cname) (w : world) : world :=
  match mro_lookup w cls "_dunder_call_lock" with
  | Some g =>
      if truthy g then w
      else setattr_world cls "_dunder_call_lock" (VLock (next_lock w)) (alloc_lock w)
  | None => w
  end.

Definition ensure_captured (cls : cname) (w : world) : world :=
  match mro_lookup w cls "_original_dunder_call", class_getattr w cls "__call__" with
  | Some o, Some call =>
      if truthy o then w
      else setattr_world cls "requires_context" VFalse
             (log_capture cls call
                (setattr_world cls "_original_dunder_call" call w))
  | _, _ => w
  end.

Definition rebind (cls : cname) (ctx : pyval) (w : world) : world :=
  match mro_lookup w cls "_original_dunder_call" with
  | Some o => setattr_world cls "__call__" (rebound (class_get o) ctx) w
  | None => w
  end.

(** The block under [with] in [set_context]. *)
Definition guarded_body (cls : cname) (ctx : pyval) : prog unit :=
  original ← getattr_cls cls "_original_dunder_call";
  (if truthy original then mret ()
   else Mixin._save_original_dunder_call cls;;
        Mixin._disable_requires_context_flag cls);;
  Mixin._provide_context_to_dunder_call cls ctx.

(** The class an instruction writes to, if it writes. *)
Definition instr_target {B : Type} (i : instr B) : option cname :=
  match i with
  | ISetAttr c _ _ | ICapture c _ => Some c
  | _ => None
  end.

(** Every store of the program goes to class [c]. *)
Inductive writes_only (c : cname) {A : Type} : prog A → Prop :=
| wo_ret (a : A) : writes_only c (Ret a)
| wo_throw (e : exn) : writes_only c (Throw e)
| wo_act (B : Type) (i : instr B) (k : B → prog A) :
    (∀ c', instr_target i = Some c' → c' = c) →
    (∀ b, writes_only c (k b)) →
    writes_only c (Act i k).

(* ===================================================================== *)
(** ** A small class library for examples *)
(* ===================================================================== *)

Definition mk_world (hier : list (cname * list cname))
    (attrs : list (cname * string * value)) : world :=
  {| bases := list_to_map hier; dicts := list_to_map attrs;
     next_lock := 0; held := ∅; capture_log := []; inside := [] |}.

Definition mixin_attrs : list (cname * string * value) :=
  (λ kv, (Mixin.class_name, kv.1, kv.2)) <$> Mixin.class_body.

(** [def __call__(self, value, serializer_field): return serializer_field] *)
Definition echo_field : pyfunc :=
  {| fn_name := "echo_field"; co_argcount := 3;
     co_varnames := ["self"; "value"; "serializer_field"];
     fn_body := λ args, Returns (default PyNone (args !! 2)) |}.

(** [def __call__(self, ctx): return ctx] *)
Definition echo_ctx : pyfunc :=
  {| fn_name := "echo_ctx"; co_argcount := 2;
     co_varnames := ["self"; "ctx"];
     fn_body := λ args, Returns (default PyNone (args !! 1)) |}.

(** [def __call__(self, value): checked = value is not None; return checked] *)
Definition check_value : pyfunc :=
  {| fn_name := "check_value"; co_argcount := 2;
     co_varnames := ["self"; "value"; "checked"];
     fn_body := λ args,
       Returns (match args !! 1 with
                | Some PyNone | None => PyBool false
                | Some _ => PyBool true
                end) |}.

(** [def __call__(self): lo = 0; hi = 1; return lo < hi] *)
Definition no_args : pyfunc :=
  {| fn_name := "no_args"; co_argcount := 1;
     co_varnames := ["self"; "lo"; "hi"];
     fn_body := λ _, Returns (PyBool true) |}.

(** The classes of the examples, all unpatched:
    - [A(Mixin)]: [requires_context = True], [__call__ = echo_field];
    - [B(A)]: an empty body;
    - [E(Mixin)]: [__call__ = echo_ctx];
    - [V(Mixin)]: [__call__ = check_value];
    - [N(Mixin)]: [__call__ = no_args]. *)
Definition library : world :=
  mk_world
    [(Mixin.class_name, []);
     ("A", [Mixin.class_name]);
     ("B", ["A"; Mixin.class_name]);
     ("E", [Mixin.class_name]);
     ("V", [Mixin.class_name]);
     ("N", [Mixin.class_name])]
    (mixin_attrs ++
     [("A", "requires_context", VTrue); ("A", "__call__", VFunc echo_field);
      ("E", "__call__", VFunc echo_ctx);
      ("V", "__call__", VFunc check_value);
      ("N", "__call__", VFunc no_args)]).

Definition a1 : instance := {| inst_class := "A"; inst_addr := 1 |}.
Definition b1 : instance := {| inst_class := "B"; inst_addr := 2 |}.
Definition e1 : instance := {| inst_class := "E"; inst_addr := 3 |}.
Definition v1 : instance := {| inst_class := "V"; inst_addr := 4 |}.
Definition n1 : instance := {| inst_class := "N"; inst_addr := 5 |}.

(** The flag of [A] switched on again by hand after a first delivery. *)
Definition library_reenabled : world :=
  setattr_world "A" "requires_context" VTrue (set_context a1 (PyObj 7) library).1.

(** The schedule of the race on the creation of the guard: thread 0 looks
    the lock up and creates one; thread 1 looks it up, creates, stores,
    reads back and acquires its own; thread 0 stores, reads back and
    acquires the one it created. *)
Definition race_to_the_guard : list nat := [0; 0; 1; 1; 1; 1; 1; 0; 0; 0].

(** Then both threads test [_original_dunder_call] and both capture; thread
    0 and thread 1 finish, and the threads from 2 on run one after the
    other. *)
Definition both_capture_then_all_finish : list nat :=
  [0; 1; 0; 0; 1; 1] ++ replicate 7 0 ++ replicate 7 1
  ++ mjoin ((λ t, replicate 10 t) <$> seq 2 48).

(* ===================================================================== *)
(** ** The shape of the guarded block *)
(* ===================================================================== *)

(** What the block under [with] may execute: lookups and stores, no store
    to [_dunder_call_lock], no lock created, taken or given back. *)
Definition critical_instr {B : Type} (i : instr B) : Prop :=
  match i with
  | ILookup _ _ => True
  | ISetAttr _ a _ => a ≠ "_dunder_call_lock"
  | ICapture _ _ => True
  | INewLock | IAcquire _ _ | IRelease _ _ => False
  end.

Fixpoint critical {A : Type} (p : prog A) : Prop :=
  match p with
  | Ret _ | Throw _ => True
  | Act i k => critical_instr i ∧ ∀ b, critical (k b)
  end.

(** [B(A)] with a body of its own: [requires_context = True] and
    [__call__ = check_value]. *)
Definition library_override : world :=
  setattr_world "B" "requires_context" VTrue
    (setattr_world "B" "__call__" (VFunc check_value) library).


Definition a2 : instance := {| inst_class := "A"; inst_addr := 6 |}.

(** The class reads no lock yet. *)
Definition unguarded (w : world) (cls : cname) : bool :=
  match mro_lookup w cls "_dunder_call_lock" with
  | Some g => negb (truthy g)
  | None => false
  end.

(* ===================================================================== *)
(** ** The shape of a thread that delivers *)
(* ===================================================================== *)

(** Threads that each deliver one context to one instance of class [cls]:
    a request is the address of the instance and the context. *)
Definition spawn (cls : cname) (requests : list (nat * pyval)) (w : world)
  : Threads.config :=
  {| Threads.shared := w;
     Threads.pool :=
       (λ r, Mixin.set_context {| inst_class := cls; inst_addr := r.1 |} r.2)
         <$> requests |}.

Definition finished (p : prog unit) : Prop :=
  match p with
  | Act _ _ => False
  | _ => True
  end.

(** A thread inside the guarded block of [cls], holding lock [l]: it runs
    instructions of the block, then gives [l] back and is finished. *)
Definition holds_guard_instr (cls : cname) (l : nat) {B : Type} (i : instr B)
    (rest finish : B → Prop) : Prop :=
  match i in instr B return (B → Prop) → (B → Prop) → Prop with
  | ILookup _ _ => λ rest _, ∀ o, rest o
  | ISetAttr _ a _ => λ rest _, a ≠ "_dunder_call_lock" ∧ rest ()
  | ICapture _ _ => λ rest _, rest ()
  | IRelease c' l' => λ _ finish, c' = cls ∧ l' = l ∧ finish ()
  | INewLock => λ _ _, False
  | IAcquire _ _ => λ _ _, False
  end rest finish.

Fixpoint holds_guard (cls : cname) (l : nat) (p : prog unit) : Prop :=
  match p with
  | Act i k =>
      holds_guard_instr cls l i (λ b, holds_guard cls l (k b)) (λ b, finished (k b))
  | _ => False
  end.

(** A thread outside the block, in a world where [cls] reads lock [l]: it
    only looks attributes up until it takes [l], and is inside from then
    on; or it is finished. *)
Definition awaits_guard_instr (cls : cname) (l : nat) {B : Type} (i : instr B)
    (rest taken : B → Prop) : Prop :=
  match i in instr B return (B → Prop) → (B → Prop) → Prop with
  | ILookup c a =>
      λ rest _, ∀ o, (c = cls → a = "_dunder_call_lock" → o = Some (VLock l)) → rest o
  | IAcquire c' l' => λ _ taken, c' = cls ∧ l' = l ∧ taken ()
  | ISetAttr _ _ _ => λ _ _, False
  | ICapture _ _ => λ _ _, False
  | INewLock => λ _ _, False
  | IRelease _ _ => λ _ _, False
  end rest taken.

Fixpoint awaits_guard (cls : cname) (l : nat) (p : prog unit) : Prop :=
  match p with
  | Act i k =>
      awaits_guard_instr cls l i
        (λ b, awaits_guard cls l (k b)) (λ b, holds_guard cls l (k b))
  | _ => True
  end.

(** The invariant of deliveries on a class that reads lock [l]: either [l]
    is free and every thread is outside, or [l] is held and exactly one
    thread is inside. *)
Definition serialized (cls : cname) (l : nat) (cfg : Threads.config) : Prop :=
  mro_lookup (Threads.shared cfg) cls "_dunder_call_lock" = Some (VLock l)
  ∧ (((l ∉ held (Threads.shared cfg))
      ∧ threads_inside (Threads.shared cfg) cls = 0
      ∧ ∀ t p, Threads.pool cfg !! t = Some p → awaits_guard cls l p)
     ∨ ((l ∈ held (Threads.shared cfg))
        ∧ threads_inside (Threads.shared cfg) cls = 1
        ∧ ∃ t p, Threads.pool cfg !! t = Some p ∧ holds_guard cls l p
                 ∧ ∀ t' p', t' ≠ t → Threads.pool cfg !! t' = Some p' →
                            awaits_guard cls l p')).

(** The next step of the thread is a store to a class: one of the
    assignments of the guarded block. *)
Definition stores_next (p : prog unit) : Prop :=
  match p with
  | Act i _ => is_Some (instr_target i)
  | _ => False
  end.

(** A thread on a class that reads lock [l] and captured entry point [o]:
    along the lookups such a world answers, it stores to the [__call__] of
    [cls] only, captures nothing and creates no lock. *)
Definition settled_instr (cls : cname) (l : nat) (o : value) {B : Type} (i : instr B)
    (rest : B → Prop) : Prop :=
  match i in instr B return (B → Prop) → Prop with
  | ILookup c a =>
      λ rest, ∀ r, (c = cls → a = "_dunder_call_lock" → r = Some (VLock l)) →
                   (c = cls → a = "_original_dunder_call" → r = Some o) → rest r
  | ISetAttr c a _ => λ rest, c = cls ∧ a = "__call__" ∧ rest ()
  | IAcquire _ _ => λ rest, rest ()
  | IRelease _ _ => λ rest, rest ()
  | ICapture _ _ => λ _, False
  | INewLock => λ _, False
  end rest.

Fixpoint settled (cls : cname) (l : nat) (o : value) {A : Type} (p : prog A) : Prop :=
  match p with
  | Act i k => settled_instr cls l o i (λ b, settled cls l o (k b))
  | _ => True
  end.

(** What no delivery on the patched class [cls] changes, from world [w0]
    on: the capture log, the locks created, every attribute but
    [__call__], and the dictionaries of the other classes. *)
Definition only_call_rebound (cls : cname) (w0 w : world) : Prop :=
  capture_log w = capture_log w0
  ∧ next_lock w = next_lock w0
  ∧ (∀ c a, a ≠ "__call__" → mro_lookup w c a = mro_lookup w0 c a)
  ∧ (∀ c a, c ≠ cls → own_attr w c a = own_attr w0 c a).

(** Three requests on class [A], and a schedule that lets the first thread
    take the guard and makes the other two try. *)
Definition three_requests : list (nat * pyval) :=
  [(1, PyObj 11); (2, PyObj 12); (3, PyObj 13)].

Definition contended : list nat := [0; 0; 0; 1; 1; 1; 2; 2; 2; 0; 0; 1; 2].

(* ===================================================================== *)
(** ** Attribute lookup after a store *)
(* ===================================================================== *)

Section lookup_facts.
Implicit Types (b : gmap string (list string)) (d : gmap (string * string) value).
Implicit Types (w : world) (c a : string) (v : value) (l : list string).

Lemma find_attr_insert_attr_ne d c a v l a' :
  a ≠ a' → find_attr (<[(c, a) := v]> d) l a' = find_attr d l a'.
Proof.
  intros Hne. induction l as [|c' l IH]; [done|]. simpl.
  rewrite lookup_insert_ne by congruence. by rewrite IH.
Qed.

(** Lookup only consults the dictionaries of the classes on the MRO. *)
Lemma find_attr_agree d d' l a :
  (∀ c, c ∈ l → d' !! (c, a) = d !! (c, a)) →
  find_attr d' l a = find_attr d l a.
Proof.
  induction l as [|c l IH]; [done|]. intros Hagree. simpl.
  rewrite Hagree by left. rewrite IH; [done|].
  intros c' Hc'. apply Hagree. by right.
Qed.

(** A store on a class is what the class then reads. *)
Lemma lookup_in_insert_eq b d c a v :
  is_Some (b !! c) → lookup_in b (<[(c, a) := v]> d) c a = Some v.
Proof.
  intros [bs Hbs]. unfold lookup_in. rewrite Hbs. simpl.
  by rewrite lookup_insert_eq.
Qed.

(** A store of one attribute leaves the other attributes of every class. *)
Lemma lookup_in_insert_attr_ne b d c a v c' a' :
  a ≠ a' → lookup_in b (<[(c, a) := v]> d) c' a' = lookup_in b d c' a'.
Proof.
  intros Hne. unfold lookup_in. destruct (b !! c') as [bs|]; [|done].
  by apply find_attr_insert_attr_ne.
Qed.

Lemma lookup_in_is_class b d c a v :
  lookup_in b d c a = Some v → is_Some (b !! c).
Proof. unfold lookup_in. destruct (b !! c); [eauto|done]. Qed.

(** An attribute of the class's own dictionary shadows the bases. *)
Lemma lookup_in_own b d c a v :
  is_Some (b !! c) → d !! (c, a) = Some v → lookup_in b d c a = Some v.
Proof.
  intros [bs Hbs] Hown. unfold lookup_in. rewrite Hbs. simpl. by rewrite Hown.
Qed.

Lemma mro_lookup_setattr_eq w c a v :
  is_Some (bases w !! c) → mro_lookup (setattr_world c a v w) c a = Some v.
Proof. intros. by apply lookup_in_insert_eq. Qed.

Lemma mro_lookup_setattr_attr_ne w c a v c' a' :
  a ≠ a' → mro_lookup (setattr_world c a v w) c' a' = mro_lookup w c' a'.
Proof. intros. by apply lookup_in_insert_attr_ne. Qed.

Lemma mro_lookup_acquire c n w c' a :
  mro_lookup (acquire c n w) c' a = mro_lookup w c' a.
Proof. done. Qed.

Lemma mro_lookup_alloc_lock w c a :
  mro_lookup (alloc_lock w) c a = mro_lookup w c a.
Proof. done. Qed.

Lemma mro_lookup_log_capture c v w c' a :
  mro_lookup (log_capture c v w) c' a = mro_lookup w c' a.
Proof. done. Qed.

Lemma class_get_idemp v : class_get (class_get v) = class_get v.
Proof. by destruct v. Qed.

Lemma truthy_class_get v : truthy (class_get v) = truthy v.
Proof. by destruct v. Qed.

Lemma partialmethod_code e names kw :
  code_varnames e = Some names → partialmethod e kw = Some (VPartialMethod e kw).
Proof. destruct e; simpl; intros; congruence. Qed.

Lemma context_slot_class_get e n : context_slot e = inr n → class_get e = e.
Proof. unfold context_slot. by destruct e. Qed.

Lemma context_slot_truthy e n : context_slot e = inr n → truthy e = true.
Proof. unfold context_slot. by destruct e. Qed.

(** Two worlds with the same components are the same world. *)
Lemma world_eq w1 w2 :
  bases w1 = bases w2 → dicts w1 = dicts w2 → next_lock w1 = next_lock w2 →
  held w1 = held w2 → capture_log w1 = capture_log w2 → inside w1 = inside w2 →
  w1 = w2.
Proof. destruct w1, w2; simpl; intros; by subst. Qed.

Lemma release_acquire c n w : n ∉ held w → release c n (acquire c n w) = w.
Proof.
  intros Hfree. apply world_eq; simpl; try done.
  - apply set_eq. intros x.
    rewrite elem_of_difference, elem_of_union, elem_of_singleton.
    split; [by intros [[->|?] ?]|].
    intros Hx. split; [by right|]. by intros ->.
  - by rewrite String.eqb_refl.
Qed.

End lookup_facts.

(* ===================================================================== *)
(** ** Running programs *)
(* ===================================================================== *)

Section run_facts.

(** Sequencing runs the first program, then the second on what it left. *)
Lemma run_bind {A B : Type} (p : prog A) (f : A → prog B) w :
  run (p ≫= f) w =
    match run p w with
    | (w', Returns a) => run (f a) w'
    | (w', Raises e) => (w', Raises e)
    | (w', Blocks) => (w', Blocks)
    end.
Proof.
  revert w. induction p as [a|e|C i k IH]; intros w; simpl; [done..|].
  destruct (exec i w) as [[w' b]|]; [apply IH|done].
Qed.

(** The cleanup of [finally] runs whether the body returns or raises, and
    the body's outcome is kept when the cleanup returns. *)
Lemma run_finally {A : Type} (p : prog A) (cleanup : prog unit) w :
  run (finally p cleanup) w =
    match run p w with
    | (w', Blocks) => (w', Blocks)
    | (w', r) =>
        match run cleanup w' with
        | (w'', Returns _) => (w'', r)
        | (w'', Raises e) => (w'', Raises e)
        | (w'', Blocks) => (w'', Blocks)
        end
    end.
Proof.
  revert w. induction p as [a|e|C i k IH]; intros w; simpl.
  - change (prog_bind (λ _, Ret a) cleanup) with (cleanup ≫= λ _, Ret a).
    rewrite run_bind. by destruct (run cleanup w) as [w' [[]|e|]].
  - change (prog_bind (λ _, Throw e) cleanup) with (cleanup ≫= λ _, Throw e : prog A).
    rewrite run_bind. by destruct (run cleanup w) as [w' [[]|e'|]].
  - destruct (exec i w) as [[w' b]|]; [apply IH|done].
Qed.

Context {A : Type}.
Implicit Types (f : value → prog A) (k : unit → prog A).

Lemma run_ret_bind {B : Type} (b : B) (h : B → prog A) w :
  run (mret b ≫= h) w = run (h b) w.
Proof. done. Qed.

Lemma run_getattr_cls cls a v f w :
  mro_lookup w cls a = Some v →
  run (getattr_cls cls a ≫= f) w = run (f (class_get v)) w.
Proof. intros Hv. simpl. by rewrite Hv. Qed.

Lemma run_setattr_cls cls a v k w :
  run (setattr_cls cls a v ≫= k) w = run (k ()) (setattr_world cls a v w).
Proof. done. Qed.

Lemma run_new_lock f w :
  run (new_lock ≫= f) w = run (f (VLock (next_lock w))) (alloc_lock w).
Proof. done. Qed.

Lemma run_or_raise_Some {B : Type} e (b : B) (h : B → prog A) w :
  run (or_raise e (Some b) ≫= h) w = run (h b) w.
Proof. done. Qed.

Lemma run_setattr_cls_last cls a v w :
  run (setattr_cls cls a v) w = (setattr_world cls a v w, Returns ()).
Proof. done. Qed.

Lemma run_capture_last cls v w :
  run (Act (ICapture cls v) Ret) w =
    (log_capture cls v (setattr_world cls "_original_dunder_call" v w), Returns ()).
Proof. done. Qed.

Lemma run_getattr_cls_last cls a v w :
  mro_lookup w cls a = Some v →
  run (getattr_cls cls a) w = (w, Returns (class_get v)).
Proof. intros Hv. simpl. by rewrite Hv. Qed.

(** A free lock is taken for the time of the body and given back. *)
Lemma run_with_guard cls l (body : prog A) w :
  l ∉ held w →
  run (with_guard cls (VLock l) body) w =
    match run body (acquire cls l w) with
    | (w', Blocks) => (w', Blocks)
    | (w', r) => (release cls l w', r)
    end.
Proof.
  intros Hl. simpl. rewrite bool_decide_eq_false_2 by done.
  rewrite run_finally. simpl. by destruct (run body (acquire cls l w)) as [w' [a|e|]].
Qed.

End run_facts.

(* ===================================================================== *)
(** ** The stages of a delivery *)
(* ===================================================================== *)

Section stages.
Implicit Types (w : world) (cls : string) (ctx : pyval) (e o : value).

Lemma guard_ready_cases w cls :
  guard_ready w cls = true →
  ∃ g, mro_lookup w cls "_dunder_call_lock" = Some g ∧
       ((∃ l, g = VLock l ∧ l ∉ held w) ∨
        (truthy g = false ∧ next_lock w ∉ held w)).
Proof.
  unfold guard_ready.
  destruct (mro_lookup w cls "_dunder_call_lock") as [g|]; [|done].
  intros Hg. exists g. split; [done|].
  destruct g as [d|l|f|g kw|g kw|c]; try done.
  - right. apply andb_true_iff in Hg as [Hf Hh].
    apply negb_true_iff in Hf. by apply bool_decide_eq_true in Hh.
  - left. apply bool_decide_eq_true in Hg. eauto.
Qed.

Lemma unpatched_cases w cls :
  unpatched w cls = true →
  ∃ o, mro_lookup w cls "_original_dunder_call" = Some o ∧ truthy o = false.
Proof.
  unfold unpatched.
  destruct (mro_lookup w cls "_original_dunder_call") as [o|]; [|done].
  intros Ho. apply negb_true_iff in Ho. eauto.
Qed.

Lemma class_getattr_found w cls a v :
  mro_lookup w cls a = Some v → class_getattr w cls a = Some (class_get v).
Proof. unfold class_getattr. by intros ->. Qed.


Lemma class_getattr_class_get w cls a v :
  class_getattr w cls a = Some v → class_get v = v.
Proof.
  unfold class_getattr, metaclass_attr.
  destruct (mro_lookup w cls a) as [v'|].
  - intros [= <-]. apply class_get_idemp.
  - destruct (String.eqb a "__call__"); [|done]. by intros [= <-].
Qed.

(** [getattr_cls] computes [class_getattr]. *)
Lemma run_class_getattr {A : Type} cls a v (f : value → prog A) w :
  class_getattr w cls a = Some v →
  run (getattr_cls cls a ≫= f) w = run (f v) w.
Proof.
  unfold class_getattr. simpl.
  destruct (mro_lookup w cls a) as [v'|]; [by intros [= <-]|].
  by intros ->.
Qed.

Lemma original_entry_class_get w cls e :
  original_entry w cls = Some e → class_get e = e.
Proof.
  unfold original_entry.
  destruct (mro_lookup w cls "_original_dunder_call") as [o|]; [|done].
  simpl. destruct (truthy o).
  - intros [= <-]. apply class_get_idemp.
  - apply class_getattr_class_get.
Qed.

Lemma original_entry_is_class w cls e :
  original_entry w cls = Some e → is_Some (bases w !! cls).
Proof.
  unfold original_entry.
  destruct (mro_lookup w cls "_original_dunder_call") as [o|] eqn:Ho; [|done].
  intros _. by eapply lookup_in_is_class.
Qed.

(** The guard property hands out a free lock and leaves [ensure_guard]. *)
Lemma run_guard cls w :
  guard_ready w cls = true →
  ∃ l, (run (Mixin._dunder_call_modification_guard cls) w
          = (ensure_guard cls w, Returns (VLock l)))
       ∧ (l ∉ held w)
       ∧ mro_lookup (ensure_guard cls w) cls "_dunder_call_lock" = Some (VLock l).
Proof.
  intros Hg. apply guard_ready_cases in Hg as (g & Hl & Hg).
  pose proof (lookup_in_is_class _ _ _ _ _ Hl) as Hcls.
  unfold ensure_guard, Mixin._dunder_call_modification_guard.
  rewrite (run_getattr_cls _ _ g) by done. rewrite truthy_class_get, Hl.
  destruct Hg as [(l & -> & Hh)|[Ht Hh]].
  - simpl truthy. cbv iota. rewrite run_ret_bind.
    rewrite (run_getattr_cls_last _ _ (VLock l)) by done. eauto.
  - rewrite Ht. rewrite run_bind, run_new_lock, run_setattr_cls_last.
    rewrite (run_getattr_cls_last _ _ (VLock (next_lock w)))
      by (by apply lookup_in_insert_eq).
    exists (next_lock w). split_and!; [done..|].
    by apply lookup_in_insert_eq.
Qed.

(** [_provide_context_to_dunder_call] amounts to one store in [__call__]. *)
Lemma run_provide cls ctx o w :
  mro_lookup w cls "_original_dunder_call" = Some o →
  run (Mixin._provide_context_to_dunder_call cls ctx) w =
    (setattr_world cls "__call__" (rebound (class_get o) ctx) w,
     delivery_outcome (class_get o)).
Proof.
  intros Ho. pose proof (lookup_in_is_class _ _ _ _ _ Ho) as Hcls.
  unfold Mixin._provide_context_to_dunder_call.
  rewrite (run_getattr_cls _ _ o) by done.
  rewrite run_setattr_cls.
  rewrite (run_getattr_cls _ _ (class_get o)) by by apply mro_lookup_setattr_eq.
  rewrite class_get_idemp.
  unfold rebound, delivery_outcome, context_slot, getattr_co_varnames, tuple_index.
  destruct (code_varnames (class_get o)) as [names|] eqn:Hcode; [|done].
  rewrite run_or_raise_Some.
  destruct (names !! 2) as [n|] eqn:Hn; [|done].
  rewrite run_or_raise_Some.
  rewrite (run_getattr_cls _ _ (class_get o)) by by apply mro_lookup_setattr_eq.
  rewrite class_get_idemp, (partialmethod_code _ _ _ Hcode), run_or_raise_Some.
  rewrite run_setattr_cls_last. f_equal.
  apply world_eq; simpl; try done. apply insert_insert_eq.
Qed.

Lemma run_guarded_body cls ctx w e :
  original_entry w cls = Some e →
  run (guarded_body cls ctx) w =
    (rebind cls ctx (ensure_captured cls w), delivery_outcome e).
Proof.
  unfold original_entry, guarded_body.
  destruct (mro_lookup w cls "_original_dunder_call") as [o|] eqn:Ho; [|done].
  pose proof (lookup_in_is_class _ _ _ _ _ Ho) as Hcls.
  rewrite (run_getattr_cls _ _ o) by done. rewrite truthy_class_get.
  unfold ensure_captured. rewrite Ho. simpl mbind at 1.
  destruct (truthy o) eqn:Ht.
  - intros [= <-]. rewrite run_ret_bind, (run_provide _ _ o) by done.
    unfold rebind. destruct (class_getattr w cls "__call__"); by rewrite Ho.
  - intros Hcall. rewrite Hcall, run_bind.
    unfold Mixin._save_original_dunder_call, Mixin._disable_requires_context_flag.
    rewrite run_bind, (run_class_getattr _ _ e) by done.
    rewrite run_capture_last. cbv beta iota. rewrite run_setattr_cls_last.
    cbv beta iota.
    set (w3 := setattr_world cls "requires_context" VFalse _).
    assert (mro_lookup w3 cls "_original_dunder_call" = Some e) as Ho3.
    { unfold w3. rewrite mro_lookup_setattr_attr_ne by done.
      by apply lookup_in_insert_eq. }
    rewrite (run_provide _ _ _ _ Ho3). unfold rebind.
    by rewrite Ho3, (class_getattr_class_get _ _ _ _ Hcall).
Qed.

Lemma ensure_captured_acquire cls c l w :
  ensure_captured cls (acquire c l w) = acquire c l (ensure_captured cls w).
Proof.
  unfold ensure_captured, class_getattr. rewrite !mro_lookup_acquire.
  fold (class_getattr w cls "__call__").
  destruct (mro_lookup w cls "_original_dunder_call") as [o|]; [|done].
  destruct (class_getattr w cls "__call__"); [|done]. by destruct (truthy o).
Qed.

Lemma rebind_acquire cls ctx c l w :
  rebind cls ctx (acquire c l w) = acquire c l (rebind cls ctx w).
Proof.
  unfold rebind. rewrite !mro_lookup_acquire.
  by destruct (mro_lookup w cls "_original_dunder_call").
Qed.

Lemma held_ensure_guard cls w : held (ensure_guard cls w) = held w.
Proof.
  unfold ensure_guard.
  destruct (mro_lookup w cls "_dunder_call_lock") as [g|]; [|done].
  by destruct (truthy g).
Qed.

Lemma held_ensure_captured cls w : held (ensure_captured cls w) = held w.
Proof.
  unfold ensure_captured.
  destruct (mro_lookup w cls "_original_dunder_call") as [o|]; [|done].
  destruct (class_getattr w cls "__call__"); [|done]. by destruct (truthy o).
Qed.

Lemma held_rebind cls ctx w : held (rebind cls ctx w) = held w.
Proof. unfold rebind. by destruct (mro_lookup w cls "_original_dunder_call"). Qed.

(** The guard stage touches [_dunder_call_lock] only. *)
Lemma mro_lookup_ensure_guard cls w c a :
  a ≠ "_dunder_call_lock" →
  mro_lookup (ensure_guard cls w) c a = mro_lookup w c a.
Proof.
  intros Ha. unfold ensure_guard.
  destruct (mro_lookup w cls "_dunder_call_lock") as [g|]; [|done].
  destruct (truthy g); [done|].
  by rewrite mro_lookup_setattr_attr_ne, mro_lookup_alloc_lock.
Qed.

Lemma original_entry_ensure_guard cls w :
  original_entry (ensure_guard cls w) cls = original_entry w cls.
Proof.
  unfold original_entry, class_getattr. by rewrite !mro_lookup_ensure_guard.
Qed.

(** Sequential refinement: on a world whose guard can be taken and whose
    class has an entry point, [set_context] is the composition of the
    three stages, and it ends as the lookup of the context slot does. *)
Lemma set_context_explicit self ctx w e :
  guard_ready w (inst_class self) = true →
  original_entry w (inst_class self) = Some e →
  set_context self ctx w =
    (rebind (inst_class self) ctx
       (ensure_captured (inst_class self) (ensure_guard (inst_class self) w)),
     delivery_outcome e).
Proof.
  destruct self as [cls addr]. simpl. intros Hg He.
  destruct (run_guard _ _ Hg) as (l & Hrun & Hl & _).
  unfold set_context, Mixin.set_context. simpl inst_class.
  rewrite run_bind, Hrun.
  rewrite run_with_guard by (by rewrite held_ensure_guard).
  fold (guarded_body cls ctx).
  rewrite (run_guarded_body _ _ _ e)
    by (by rewrite <- He, <- (original_entry_ensure_guard cls w)).
  rewrite ensure_captured_acquire, rebind_acquire, release_acquire
    by (by rewrite held_rebind, held_ensure_captured, held_ensure_guard).
  unfold delivery_outcome. by destruct (context_slot e).
Qed.

Lemma rebound_falsy e ctx : truthy e = false → rebound e ctx = e.
Proof. unfold rebound, context_slot. by destruct e. Qed.

(** After the capture stage the class reads an original entry point that
    stands for [e]. *)
Lemma ensure_captured_original cls w e :
  original_entry w cls = Some e →
  ∃ o', mro_lookup (ensure_captured cls w) cls "_original_dunder_call" = Some o'
        ∧ class_get o' = e.
Proof.
  unfold original_entry, ensure_captured.
  destruct (mro_lookup w cls "_original_dunder_call") as [o|] eqn:Ho; [|done].
  pose proof (lookup_in_is_class _ _ _ _ _ Ho) as Hcls. simpl.
  destruct (truthy o) eqn:Ht.
  - intros [= <-]. exists o. by destruct (class_getattr w cls "__call__").
  - intros Hcall. rewrite Hcall. exists e.
    split; [|by eapply class_getattr_class_get].
    rewrite mro_lookup_setattr_attr_ne by done.
    by apply lookup_in_insert_eq.
Qed.

Lemma bases_stages cls ctx w :
  bases (rebind cls ctx (ensure_captured cls (ensure_guard cls w))) = bases w.
Proof.
  unfold rebind, ensure_captured, ensure_guard.
  repeat (case_match; simpl; try done).
Qed.

Lemma mro_lookup_rebind cls ctx w c a :
  a ≠ "__call__" → mro_lookup (rebind cls ctx w) c a = mro_lookup w c a.
Proof.
  intros Ha. unfold rebind.
  destruct (mro_lookup w cls "_original_dunder_call"); [|done].
  by rewrite mro_lookup_setattr_attr_ne.
Qed.

Lemma mro_lookup_ensure_captured cls w c a :
  a ≠ "_original_dunder_call" → a ≠ "requires_context" →
  mro_lookup (ensure_captured cls w) c a = mro_lookup w c a.
Proof.
  intros Ha1 Ha2. unfold ensure_captured.
  destruct (mro_lookup w cls "_original_dunder_call") as [o|]; [|done].
  destruct (class_getattr w cls "__call__"); [|done].
  destruct (truthy o); [done|].
  rewrite mro_lookup_setattr_attr_ne by done.
  by rewrite mro_lookup_log_capture, mro_lookup_setattr_attr_ne.
Qed.

(** What a delivery establishes, whatever its outcome. *)
Lemma delivery_effect self ctx w e :
  guard_ready w (inst_class self) = true →
  original_entry w (inst_class self) = Some e →
  let w' := (set_context self ctx w).1 in
  guard_ready w' (inst_class self) = true
  ∧ original_entry w' (inst_class self) = Some e
  ∧ own_attr w' (inst_class self) "__call__" = Some (rebound e ctx)
  ∧ bases w' = bases w.
Proof.
  intros Hg He. simpl. rewrite (set_context_explicit _ _ _ e) by done. simpl.
  set (cls := inst_class self) in *.
  destruct (run_guard _ _ Hg) as (l & _ & Hfree & Hlock).
  destruct (ensure_captured_original cls (ensure_guard cls w) e) as (o' & Ho' & Hcg);
    [by rewrite original_entry_ensure_guard|].
  pose proof (lookup_in_is_class _ _ _ _ _ Ho') as Hcls.
  split_and!.
  - unfold guard_ready.
    rewrite mro_lookup_rebind, mro_lookup_ensure_captured, Hlock by done.
    rewrite held_rebind, held_ensure_captured, held_ensure_guard.
    by apply bool_decide_eq_true.
  - unfold original_entry.
    rewrite (mro_lookup_rebind _ _ _ _ "_original_dunder_call"), Ho' by done. simpl.
    unfold rebind. rewrite Ho', Hcg.
    unfold class_getattr. rewrite mro_lookup_setattr_eq by done. simpl.
    destruct (truthy o') eqn:Ht; [done|].
    rewrite rebound_falsy by (by rewrite <- Hcg, truthy_class_get).
    by rewrite <- Hcg, class_get_idemp.
  - unfold rebind. rewrite Ho', Hcg. unfold own_attr. simpl.
    apply lookup_insert_eq.
  - apply bases_stages.
Qed.
End stages.

Section calls.
Implicit Types (ps : list string) (pos : list pyval) (kw : gmap string pyval).

(** All arguments given positionally. *)
Lemma bind_args_positional ps pos :
  length pos = length ps → bind_args ps pos ∅ = Some pos.
Proof.
  intros Hlen. unfold bind_args. rewrite dom_empty_L.
  rewrite (bool_decide_eq_false_2 (length ps < length pos)) by lia.
  rewrite (bool_decide_eq_false_2 (_ ∩ ∅ ≠ ∅))
    by (intros Hne; apply Hne, (right_absorb_L ∅ (∩))).
  rewrite (bool_decide_eq_true_2 (∅ ⊆ _)) by apply empty_subseteq.
  rewrite drop_ge by lia. simpl. by rewrite app_nil_r.
Qed.

(** The third parameter given by keyword, the first two positionally. *)
Lemma bind_args_third_by_keyword p0 p1 name s v ctx :
  NoDup [p0; p1; name] →
  bind_args [p0; p1; name] [s; v] {[name := ctx]} = Some [s; v; ctx].
Proof.
  intros Hnd. apply NoDup_cons in Hnd as [Hp0 Hnd].
  apply NoDup_cons in Hnd as [Hp1 _].
  apply not_elem_of_cons in Hp0 as [Hp01 Hp0%not_elem_of_cons].
  apply not_elem_of_cons in Hp1 as [Hp1 _]. destruct Hp0 as [Hp0 _].
  unfold bind_args. simpl. rewrite dom_singleton_L.
  rewrite (bool_decide_eq_false_2 (_ ∩ _ ≠ ∅)).
  2: { intros Hne. apply Hne. apply set_eq. intros x.
       rewrite elem_of_intersection, !elem_of_union, !elem_of_singleton.
       split; [|by intros ?%not_elem_of_empty].
       intros [[->|[->|?%not_elem_of_empty]] ?]; done. }
  rewrite (bool_decide_eq_true_2 (_ ⊆ _)).
  2: { intros x. rewrite !elem_of_union, !elem_of_singleton. auto. }
  simpl. by rewrite lookup_singleton_eq.
Qed.

End calls.

(** C1 (amended): for a validator class whose original entry point is a
    function [f(self, value, ctx)], three parameters with the context in
    third place, a delivery of context [ctx] returns, rebinds [__call__] to
    a partialmethod of [f] that supplies [ctx] by keyword under the name at
    index 2 of [co_varnames], and invoking the instance with the value alone
    gives what [f(self, value, ctx)] gives. *)
Theorem C1_context_forwarding self ctx w f name :
  guard_ready w (inst_class self) = true →
  original_entry w (inst_class self) = Some (VFunc f) →
  co_argcount f = 3 →
  NoDup (params f) →
  co_varnames f !! 2 = Some name →
  (set_context self ctx w).2 = Returns ()
  ∧ mro_lookup (set_context self ctx w).1 (inst_class self) "__call__"
      = Some (VPartialMethod (VFunc f) {[name := ctx]})
  ∧ (∀ pos kw,
       call_instance (set_context self ctx w).1 self pos kw
       = call_function f (self_arg self :: pos) (kw ∪ {[name := ctx]}))
  ∧ (∀ v,
       call_instance (set_context self ctx w).1 self [v] ∅
       = call_function f [self_arg self; v; ctx] ∅).
Proof.
  intros Hg He Hargs Hnd Hname.
  assert (context_slot (VFunc f) = inr name) as Hslot.
  { unfold context_slot. simpl. by rewrite Hname. }
  destruct (delivery_effect self ctx w _ Hg He) as (_ & _ & Hcall & Hb).
  pose proof (original_entry_is_class _ _ _ He) as Hcls.
  unfold rebound in Hcall. rewrite Hslot in Hcall.
  assert (mro_lookup (set_context self ctx w).1 (inst_class self) "__call__"
          = Some (VPartialMethod (VFunc f) {[name := ctx]})) as Hlook.
  { apply lookup_in_own; [by rewrite Hb|done]. }
  assert (∀ pos kw,
    call_instance (set_context self ctx w).1 self pos kw
    = call_function f (self_arg self :: pos) (kw ∪ {[name := ctx]})) as Hinvoke.
  { intros pos kw. unfold call_instance. by rewrite Hlook. }
  split_and!; [|done..|].
  - rewrite (set_context_explicit _ _ _ _ Hg He).
    unfold delivery_outcome. by rewrite Hslot.
  - intros v. rewrite Hinvoke, (left_id_L ∅ (∪)).
    unfold call_function, params in *. rewrite Hargs in *.
    destruct (co_varnames f) as [|p0 [|p1 [|p2 rest]]]; try done.
    simpl in Hname. injection Hname as ->. simpl in *.
    rewrite bind_args_third_by_keyword by done.
    by rewrite bind_args_positional.
Qed.

Lemma C1_context_forwarding_witness :
  (set_context a1 (PyObj 7) library).2 = Returns ()
  ∧ call_instance (set_context a1 (PyObj 7) library).1 a1 [PyInt 5] ∅
    = call_function echo_field [self_arg a1; PyInt 5; PyObj 7] ∅.
Proof.
  destruct (C1_context_forwarding a1 (PyObj 7) library echo_field "serializer_field")
    as (Hret & _ & _ & Hcall).
  - vm_compute. reflexivity.
  - vm_compute. reflexivity.
  - reflexivity.
  - apply (bool_decide_unpack _). vm_compute. exact I.
  - reflexivity.
  - split; [exact Hret|apply Hcall].
Defined.

(** C1, as stated, fails: with the entry point [f(self, ctx)], the delivery
    raises [IndexError] and invoking the instance without a context does not
    give what [f(self, ctx)] gives. *)
Lemma C1_counterexample :
  (set_context e1 (PyObj 7) library).2 = Raises IndexError
  ∧ call_instance (set_context e1 (PyObj 7) library).1 e1 [] ∅
    ≠ call_function echo_ctx [self_arg e1; PyObj 7] ∅.
Proof. split; [by vm_compute|]. vm_compute. discriminate. Qed.

(* ===================================================================== *)
(** ** First and later deliveries *)
(* ===================================================================== *)

Section deliveries_facts.
Implicit Types (w : world) (cls : string) (ctx : pyval) (e o : value).

Lemma ensure_guard_present cls w g :
  mro_lookup w cls "_dunder_call_lock" = Some g → truthy g = true →
  ensure_guard cls w = w.
Proof. intros Hl Ht. unfold ensure_guard. by rewrite Hl, Ht. Qed.

Lemma ensure_captured_present cls w o :
  mro_lookup w cls "_original_dunder_call" = Some o → truthy o = true →
  ensure_captured cls w = w.
Proof.
  intros Ho Ht. unfold ensure_captured. rewrite Ho, Ht.
  by destruct (class_getattr w cls "__call__").
Qed.

Lemma class_getattr_ensure_guard cls w c a :
  a ≠ "_dunder_call_lock" →
  class_getattr (ensure_guard cls w) c a = class_getattr w c a.
Proof. intros Ha. unfold class_getattr. by rewrite mro_lookup_ensure_guard. Qed.

Lemma capture_log_ensure_guard cls w :
  capture_log (ensure_guard cls w) = capture_log w.
Proof.
  unfold ensure_guard.
  destruct (mro_lookup w cls "_dunder_call_lock") as [g|]; [|done].
  by destruct (truthy g).
Qed.

Lemma capture_log_rebind cls ctx w :
  capture_log (rebind cls ctx w) = capture_log w.
Proof. unfold rebind. by destruct (mro_lookup w cls "_original_dunder_call"). Qed.

Lemma captures_snoc w cls v l :
  capture_log w = l ++ [(cls, v)] →
  captures w cls = S (length (filter (λ x, x.1 = cls) l)).
Proof.
  intros Hlog. unfold captures. rewrite Hlog, filter_app, length_app.
  rewrite filter_cons_True by done. simpl. lia.
Qed.

(** A delivery on a class that has captured its entry point: nothing is
    captured, the flag of no class is written. *)
Lemma delivery_patched self ctx w o :
  guard_ready w (inst_class self) = true →
  mro_lookup w (inst_class self) "_original_dunder_call" = Some o →
  truthy o = true →
  let w' := (set_context self ctx w).1 in
  guard_ready w' (inst_class self) = true
  ∧ mro_lookup w' (inst_class self) "_original_dunder_call" = Some o
  ∧ capture_log w' = capture_log w
  ∧ (∀ c, mro_lookup w' c "requires_context" = mro_lookup w c "requires_context").
Proof.
  intros Hg Ho Ht. set (cls := inst_class self) in *.
  assert (original_entry w cls = Some (class_get o)) as He.
  { unfold original_entry. by rewrite Ho; simpl; rewrite Ht. }
  destruct (delivery_effect self ctx w _ Hg He) as (Hg' & _). simpl.
  split; [done|]. rewrite (set_context_explicit _ _ _ _ Hg He). simpl. fold cls.
  rewrite (ensure_captured_present _ _ o)
    by (by rewrite ?mro_lookup_ensure_guard).
  split_and!.
  - by rewrite mro_lookup_rebind, mro_lookup_ensure_guard.
  - by rewrite capture_log_rebind, capture_log_ensure_guard.
  - intros c. by rewrite mro_lookup_rebind, mro_lookup_ensure_guard.
Qed.

(** The first delivery on a class: the value of [cls.__call__] is
    captured, once, and the flag of the class is switched off. *)
Lemma delivery_first_entry self ctx w e :
  guard_ready w (inst_class self) = true →
  unpatched w (inst_class self) = true →
  class_getattr w (inst_class self) "__call__" = Some e →
  let w' := (set_context self ctx w).1 in
  guard_ready w' (inst_class self) = true
  ∧ mro_lookup w' (inst_class self) "_original_dunder_call" = Some e
  ∧ capture_log w' = capture_log w ++ [(inst_class self, e)]
  ∧ mro_lookup w' (inst_class self) "requires_context" = Some VFalse.
Proof.
  intros Hg Hu Hcall. set (cls := inst_class self) in *.
  apply unpatched_cases in Hu as (o & Ho & Ht).
  pose proof (lookup_in_is_class _ _ _ _ _ Ho) as Hcls.
  assert (original_entry w cls = Some e) as He.
  { unfold original_entry. by rewrite Ho; simpl; rewrite Ht, Hcall. }
  destruct (delivery_effect self ctx w _ Hg He) as (Hg' & _). simpl.
  split; [done|]. rewrite (set_context_explicit _ _ _ _ Hg He). simpl. fold cls.
  unfold ensure_captured at 1 2 3.
  rewrite !mro_lookup_ensure_guard, !class_getattr_ensure_guard, Ho, Hcall, Ht
    by done.
  set (wg := ensure_guard cls w).
  assert (bases wg = bases w) as Hbg.
  { unfold wg, ensure_guard.
    destruct (mro_lookup w cls "_dunder_call_lock") as [g|]; [|done].
    by destruct (truthy g). }
  split_and!.
  - rewrite mro_lookup_rebind, mro_lookup_setattr_attr_ne by done.
    rewrite mro_lookup_log_capture. apply mro_lookup_setattr_eq. by rewrite Hbg.
  - rewrite capture_log_rebind. simpl. unfold wg.
    by rewrite capture_log_ensure_guard.
  - rewrite mro_lookup_rebind by done. apply mro_lookup_setattr_eq.
    simpl. by rewrite Hbg.
Qed.

Lemma delivery_first self ctx w call :
  guard_ready w (inst_class self) = true →
  unpatched w (inst_class self) = true →
  mro_lookup w (inst_class self) "__call__" = Some call →
  let w' := (set_context self ctx w).1 in
  guard_ready w' (inst_class self) = true
  ∧ mro_lookup w' (inst_class self) "_original_dunder_call" = Some (class_get call)
  ∧ capture_log w' = capture_log w ++ [(inst_class self, class_get call)]
  ∧ mro_lookup w' (inst_class self) "requires_context" = Some VFalse.
Proof.
  intros Hg Hu Hcall. apply delivery_first_entry; [done..|].
  by apply class_getattr_found.
Qed.

Lemma deliveries_app self ctxs1 ctxs2 w :
  deliveries self (ctxs1 ++ ctxs2) w = deliveries self ctxs2 (deliveries self ctxs1 w).
Proof. revert w. induction ctxs1 as [|ctx ctxs1 IH]; intros w; [done|]. apply IH. Qed.


(** The entry point a class stands for survives any run of deliveries. *)
Lemma deliveries_invariant self ctxs w e :
  guard_ready w (inst_class self) = true →
  original_entry w (inst_class self) = Some e →
  guard_ready (deliveries self ctxs w) (inst_class self) = true
  ∧ original_entry (deliveries self ctxs w) (inst_class self) = Some e.
Proof.
  revert w. induction ctxs as [|ctx ctxs IH]; intros w Hg He; [done|].
  destruct (delivery_effect self ctx w e Hg He) as (Hg' & He' & _).
  simpl. by apply IH.
Qed.

End deliveries_facts.







Section rebinding_facts.
Implicit Types (w : world) (cls : string) (ctx : pyval) (e o : value).

Lemma mro_lookup_own w (c a : string) (v : value) :
  is_Some (bases w !! c) → own_attr w c a = Some v → mro_lookup w c a = Some v.
Proof. apply lookup_in_own. Qed.

(** Rebinding twice is rebinding once, with the later context. *)
Lemma rebind_rebind cls c1 c2 w :
  rebind cls c2 (rebind cls c1 w) = rebind cls c2 w.
Proof.
  unfold rebind at 1. rewrite mro_lookup_rebind by done. unfold rebind.
  destruct (mro_lookup w cls "_original_dunder_call") as [o|]; [|done].
  apply world_eq; simpl; try done. apply insert_insert_eq.
Qed.

(** After a delivery that found its context slot, a second delivery only
    rebinds. *)
Lemma set_context_twice self c1 c2 w e name :
  guard_ready w (inst_class self) = true →
  original_entry w (inst_class self) = Some e →
  context_slot e = inr name →
  (set_context self c2 (set_context self c1 w).1).1 = (set_context self c2 w).1.
Proof.
  intros Hg He Hslot. set (cls := inst_class self) in *.
  destruct (delivery_effect self c1 w e Hg He) as (Hg1 & He1 & _).
  rewrite (set_context_explicit _ _ _ e Hg1 He1).
  rewrite !(set_context_explicit _ _ _ e Hg He). simpl. fold cls.
  set (w2 := ensure_captured cls (ensure_guard cls w)).
  destruct (run_guard _ _ Hg) as (l & _ & _ & Hlock).
  destruct (ensure_captured_original cls (ensure_guard cls w) e) as (o' & Ho' & Hcg);
    [by rewrite original_entry_ensure_guard|].
  fold cls in Hlock. fold w2 in Ho'.
  assert (truthy o' = true) as Ht.
  { rewrite <- truthy_class_get, Hcg. by eapply context_slot_truthy. }
  assert (mro_lookup (rebind cls c1 w2) cls "_dunder_call_lock" = Some (VLock l))
    as Hlock1.
  { unfold w2. by rewrite mro_lookup_rebind, mro_lookup_ensure_captured. }
  assert (mro_lookup (rebind cls c1 w2) cls "_original_dunder_call" = Some o')
    as Ho1 by (by rewrite mro_lookup_rebind).
  rewrite (ensure_guard_present _ _ _ Hlock1) by done.
  rewrite (ensure_captured_present _ _ _ Ho1) by done.
  apply rebind_rebind.
Qed.

End rebinding_facts.

(** C4: deliver [c1], then [c2], then invoke: the invocation runs the
    original entry point with [c2] bound to its context slot; and the world
    after both deliveries is the world after delivering [c2] alone. *)
Theorem C4_last_write_wins self c1 c2 w e name :
  guard_ready w (inst_class self) = true →
  original_entry w (inst_class self) = Some e →
  context_slot e = inr name →
  (∀ pos kw,
     call_instance (deliveries self [c1; c2] w) self pos kw
     = call_callable e (self_arg self :: pos) (kw ∪ {[name := c2]}))
  ∧ deliveries self [c1; c2] w = deliveries self [c2] w.
Proof.
  intros Hg He Hslot. cbn [deliveries].
  destruct (delivery_effect self c1 w e Hg He) as (Hg1 & He1 & _ & Hb1).
  destruct (delivery_effect self c2 _ e Hg1 He1) as (_ & _ & Hcall & Hb2).
  pose proof (original_entry_is_class _ _ _ He) as Hcls.
  split; [|by eapply set_context_twice].
  intros pos kw. unfold call_instance.
  rewrite (mro_lookup_own _ _ _ (rebound e c2)); [|by rewrite Hb2, Hb1|done].
  unfold rebound. by rewrite Hslot.
Qed.

Lemma C4_last_write_wins_witness :
  call_instance (deliveries a1 [PyObj 7; PyObj 8] library) a1 [PyInt 5] ∅
    = Returns (PyObj 8)
  ∧ deliveries a1 [PyObj 7; PyObj 8] library = deliveries a1 [PyObj 8] library.
Proof.
  destruct (C4_last_write_wins a1 (PyObj 7) (PyObj 8) library (VFunc echo_field)
              "serializer_field") as [Hcall Hsame].
  - vm_compute. reflexivity.
  - vm_compute. reflexivity.
  - reflexivity.
  - split; [|exact Hsame]. rewrite Hcall. vm_compute. reflexivity.
Defined.

(** C5 (amended): when the entry point is a function, the delivery raises
    [IndexError] if its [co_varnames] (parameters, then local variables)
    has fewer than three names, and returns without raising otherwise. *)
Theorem C5_missing_parameter self ctx w f :
  guard_ready w (inst_class self) = true →
  original_entry w (inst_class self) = Some (VFunc f) →
  (length (co_varnames f) < 3 → (set_context self ctx w).2 = Raises IndexError)
  ∧ (3 ≤ length (co_varnames f) → (set_context self ctx w).2 = Returns ()).
Proof.
  intros Hg He. rewrite (set_context_explicit _ _ _ _ Hg He).
  unfold delivery_outcome, context_slot. simpl. split.
  - intros Hlen. by rewrite lookup_ge_None_2 by lia.
  - intros Hlen. destruct (lookup_lt_is_Some_2 (co_varnames f) 2) as [name ->]; [lia|done].
Qed.

Lemma C5_missing_parameter_witness :
  (set_context e1 (PyObj 7) library).2 = Raises IndexError
  ∧ (set_context a1 (PyObj 7) library).2 = Returns ().
Proof.
  split.
  - apply (C5_missing_parameter e1 (PyObj 7) library echo_ctx).
    + vm_compute. reflexivity.
    + vm_compute. reflexivity.
    + simpl. lia.
  - apply (C5_missing_parameter a1 (PyObj 7) library echo_field).
    + vm_compute. reflexivity.
    + vm_compute. reflexivity.
    + simpl. lia.
Defined.

(** C5, as stated, fails: an entry point [f(self, value)] with one local
    variable, and an entry point [f(self)] with two, have no context
    parameter, yet the first delivery returns without raising. *)
Lemma C5_counterexample :
  (set_context v1 (PyObj 7) library).2 = Returns ()
  ∧ (set_context n1 (PyObj 7) library).2 = Returns ().
Proof. split; by vm_compute. Qed.

(** C9: after every delivery of a run of deliveries, the class's own
    [__call__] is one partialmethod whose underlying callable is the entry
    point the class stands for, itself unchanged, and whose only keyword is
    the context just delivered. *)
Theorem C9_no_wrapper_nesting self ctxs ctx w e name :
  guard_ready w (inst_class self) = true →
  original_entry w (inst_class self) = Some e →
  context_slot e = inr name →
  own_attr (deliveries self (ctxs ++ [ctx]) w) (inst_class self) "__call__"
    = Some (VPartialMethod e {[name := ctx]})
  ∧ original_entry (deliveries self (ctxs ++ [ctx]) w) (inst_class self) = Some e.
Proof.
  intros Hg He Hslot. rewrite deliveries_app. simpl.
  destruct (deliveries_invariant self ctxs w e Hg He) as [Hg1 He1].
  destruct (delivery_effect self ctx _ e Hg1 He1) as (_ & He2 & Hcall & _).
  split; [|done]. rewrite Hcall. unfold rebound. by rewrite Hslot.
Qed.

Lemma C9_no_wrapper_nesting_witness :
  own_attr (deliveries a1 ([PyObj 7; PyObj 8] ++ [PyObj 9]) library) "A" "__call__"
    = Some (VPartialMethod (VFunc echo_field) {["serializer_field" := PyObj 9]}).
Proof.
  apply (C9_no_wrapper_nesting a1 [PyObj 7; PyObj 8] (PyObj 9) library
           (VFunc echo_field) "serializer_field").
  - vm_compute. reflexivity.
  - vm_compute. reflexivity.
  - reflexivity.
Defined.

(** C10: a delivery on a class that has captured its entry point writes no
    [requires_context]: every class reads the flag as before, also when
    it was switched on again after the first delivery. *)
Theorem C10_flag_left_alone self ctx w o :
  guard_ready w (inst_class self) = true →
  mro_lookup w (inst_class self) "_original_dunder_call" = Some o →
  truthy o = true →
  ∀ c, mro_lookup (set_context self ctx w).1 c "requires_context"
       = mro_lookup w c "requires_context".
Proof.
  intros Hg Ho Ht.
  by destruct (delivery_patched self ctx w o Hg Ho Ht) as (_ & _ & _ & Hflag).
Qed.

Lemma C10_flag_left_alone_witness :
  mro_lookup (set_context a1 (PyObj 8) library_reenabled).1 "A" "requires_context"
    = Some VTrue.
Proof.
  rewrite (C10_flag_left_alone a1 (PyObj 8) library_reenabled (VFunc echo_field)).
  - vm_compute. reflexivity.
  - vm_compute. reflexivity.
  - vm_compute. reflexivity.
  - reflexivity.
Defined.

(* ===================================================================== *)
(** ** The footprint of a delivery *)
(* ===================================================================== *)

Section footprint.
Context (c : string).

Lemma writes_only_bind {A B : Type} (p : prog A) (f : A → prog B) :
  writes_only c p → (∀ a, writes_only c (f a)) → writes_only c (p ≫= f).
Proof.
  intros Hp Hf. induction Hp as [a|e|C i k Hi Hk IH]; simpl.
  - apply Hf.
  - constructor.
  - constructor; [done|]. intros b. apply IH.
Qed.

Lemma writes_only_finally {A : Type} (p : prog A) (cleanup : prog unit) :
  writes_only c p → writes_only c cleanup → writes_only c (finally p cleanup).
Proof.
  intros Hp Hc. induction Hp as [a|e|C i k Hi Hk IH]; simpl.
  - apply (writes_only_bind cleanup); [done|]. intros _. constructor.
  - apply (writes_only_bind cleanup (λ _, Throw e)); [done|]. intros _. constructor.
  - constructor; [done|]. intros b. apply IH.
Qed.

Lemma writes_only_or_raise {A : Type} e (o : option A) :
  writes_only c (or_raise e o).
Proof. destruct o; constructor. Qed.

Lemma writes_only_getattr_cls cls a : writes_only c (getattr_cls cls a).
Proof.
  constructor; [done|]. intros [v|]; [constructor|apply writes_only_or_raise].
Qed.

Lemma writes_only_setattr_cls a v : writes_only c (setattr_cls c a v).
Proof.
  constructor; [by intros c' [= <-]|]. intros []. constructor.
Qed.

Lemma writes_only_provide ctx :
  writes_only c (Mixin._provide_context_to_dunder_call c ctx).
Proof.
  unfold Mixin._provide_context_to_dunder_call.
  repeat first
    [ apply writes_only_bind; [|intros ?]
    | apply writes_only_getattr_cls
    | apply writes_only_setattr_cls
    | apply writes_only_or_raise ].
Qed.

Lemma writes_only_guard :
  writes_only c (Mixin._dunder_call_modification_guard c).
Proof.
  unfold Mixin._dunder_call_modification_guard.
  apply writes_only_bind; [apply writes_only_getattr_cls|]. intros lock.
  apply writes_only_bind; [|intros ?; apply writes_only_getattr_cls].
  destruct (truthy lock); [constructor|].
  apply writes_only_bind; [|intros ?; apply writes_only_setattr_cls].
  constructor; [done|]. intros ?. constructor.
Qed.

Lemma writes_only_guarded_body ctx : writes_only c (guarded_body c ctx).
Proof.
  unfold guarded_body.
  apply writes_only_bind; [apply writes_only_getattr_cls|]. intros original.
  apply writes_only_bind; [|intros ?; apply writes_only_provide].
  destruct (truthy original); [constructor|].
  apply writes_only_bind; [|intros ?; apply writes_only_setattr_cls].
  unfold Mixin._save_original_dunder_call.
  apply writes_only_bind; [apply writes_only_getattr_cls|]. intros call.
  constructor; [by intros c' [= <-]|]. intros []. constructor.
Qed.

(** A program whose stores all go to [c] leaves the hierarchy and the
    dictionaries of the other classes as they are, however it ends. *)
Lemma run_writes_only {A : Type} (p : prog A) w :
  writes_only c p →
  bases (run p w).1 = bases w
  ∧ ∀ c' a, c' ≠ c → dicts (run p w).1 !! (c', a) = dicts w !! (c', a).
Proof.
  intros Hp. revert w. induction Hp as [a|e|C i k Hi Hk IH]; intros w; [done..|].
  simpl. destruct (exec i w) as [[w' b]|] eqn:Hexec; [|done].
  destruct (IH b w') as [Hb Hd]. rewrite Hb.
  assert (bases w' = bases w
          ∧ ∀ c' a, c' ≠ c → dicts w' !! (c', a) = dicts w !! (c', a)) as [Hb' Hd'].
  { destruct i; simpl in Hexec, Hi.
    - by injection Hexec as <- <-.
    - injection Hexec as <- <-. split; [done|]. intros c' a' Hne. simpl.
      rewrite lookup_insert_ne; [done|]. intros [= <- <-]. by apply Hne, Hi.
    - injection Hexec as <- <-. split; [done|]. intros c' a' Hne. simpl.
      rewrite lookup_insert_ne; [done|]. intros [= <- <-]. by apply Hne, Hi.
    - by injection Hexec as <- <-.
    - case_bool_decide; [done|]. by injection Hexec as <- <-.
    - by injection Hexec as <- <-. }
  split; [done|]. intros c' a Hne. by rewrite Hd, Hd'.
Qed.

End footprint.

Lemma writes_only_set_context self ctx :
  writes_only (inst_class self) (Mixin.set_context self ctx).
Proof.
  unfold Mixin.set_context.
  apply writes_only_bind; [apply writes_only_guard|]. intros guard.
  fold (guarded_body (inst_class self) ctx).
  destruct guard; try constructor; try done.
  intros []. apply writes_only_finally; [apply writes_only_guarded_body|].
  constructor; [done|]. intros []. constructor.
Qed.

(** C8 (amended): a delivery on an instance of class [A] leaves every
    attribute that a class [B] reads, its entry point, its flag and its
    guard among them, when [A] is neither [B] nor one of its ancestors; and
    it leaves the own dictionary of every class other than [A]. *)
Theorem C8_isolation self ctx w B ancestors :
  bases w !! B = Some ancestors →
  inst_class self ∉ B :: ancestors →
  (∀ a, mro_lookup (set_context self ctx w).1 B a = mro_lookup w B a)
  ∧ (∀ c a, c ≠ inst_class self →
       own_attr (set_context self ctx w).1 c a = own_attr w c a).
Proof.
  intros Hbases Hnotin.
  destruct (run_writes_only (inst_class self) (Mixin.set_context self ctx) w
              (writes_only_set_context self ctx)) as [Hb Hd].
  fold (set_context self ctx w) in Hb, Hd.
  split; [|done].
  intros a. unfold mro_lookup, lookup_in. rewrite Hb, Hbases.
  change (find_attr (dicts (set_context self ctx w).1) (B :: ancestors) a
          = find_attr (dicts w) (B :: ancestors) a).
  apply find_attr_agree. intros c Hc. apply Hd. by intros ->.
Qed.

Lemma C8_isolation_witness :
  mro_lookup (set_context a1 (PyObj 7) library).1 "E" "__call__" = Some (VFunc echo_ctx)
  ∧ mro_lookup (set_context a1 (PyObj 7) library).1 "E" "_dunder_call_lock" = Some VNone.
Proof.
  destruct (C8_isolation a1 (PyObj 7) library "E" [Mixin.class_name]) as [Hlook _].
  - reflexivity.
  - apply (bool_decide_unpack _). vm_compute. exact I.
  - rewrite !Hlook. split; reflexivity.
Defined.

(** C8, as stated, fails: [B] inherits from [A], and a delivery on an
    instance of [A] changes the entry point, the flag and the guard that
    [B] reads. *)
Lemma C8_counterexample :
  mro_lookup (set_context a1 (PyObj 7) library).1 "B" "__call__"
    ≠ mro_lookup library "B" "__call__"
  ∧ mro_lookup (set_context a1 (PyObj 7) library).1 "B" "requires_context"
    ≠ mro_lookup library "B" "requires_context"
  ∧ mro_lookup (set_context a1 (PyObj 7) library).1 "B" "_dunder_call_lock"
    ≠ mro_lookup library "B" "_dunder_call_lock".
Proof. split_and!; vm_compute; discriminate. Qed.

(* ===================================================================== *)
(** ** Interleavings *)
(* ===================================================================== *)

Section interleavings.
Import Threads.

Lemma fire_steps t cfg : steps cfg (fire t cfg).
Proof.
  unfold fire. destruct cfg as [w ts]. simpl.
  destruct (ts !! t) as [[a|e|B i k]|] eqn:Ht; try apply rtc_refl.
  destruct (exec i w) as [[w' b]|] eqn:Hexec; [|apply rtc_refl].
  apply rtc_once. by econstructor.
Qed.

(** What a scheduler produces is reachable. *)
Lemma schedule_steps ts cfg : steps cfg (schedule ts cfg).
Proof.
  revert cfg. induction ts as [|t ts IH]; intros cfg; [apply rtc_refl|].
  simpl. eapply rtc_trans; [apply fire_steps|apply IH].
Qed.

Lemma schedule_app ts1 ts2 cfg :
  schedule (ts1 ++ ts2) cfg = schedule ts2 (schedule ts1 cfg).
Proof. apply foldl_app. Qed.

(** A thread alone in the pool goes the way of the sequential runner. *)
Lemma run_is_steps (p : prog unit) w :
  match (run p w).2 with
  | Returns a => steps {| shared := w; pool := [p] |}
                       {| shared := (run p w).1; pool := [Ret a] |}
  | Raises e => steps {| shared := w; pool := [p] |}
                      {| shared := (run p w).1; pool := [Throw e] |}
  | Blocks => True
  end.
Proof.
  revert w. induction p as [a|e|B i k IH]; intros w; simpl; try apply rtc_refl.
  destruct (exec i w) as [[w' b]|] eqn:Hexec; [|done].
  specialize (IH b w').
  assert (step {| shared := w; pool := [Act i k] |}
               {| shared := w'; pool := [k b] |}) as Hstep.
  { by apply (step_thread w w' [Act i k] 0 B i k b). }
  destruct (run (k b) w').2; [| |done]; by eapply rtc_l.
Qed.

End interleavings.

(** C6 (what the code does): two threads deliver to fresh class [A] at the
    same time. Thread 0 finds no lock and creates one; before it stores it,
    thread 1 finds no lock either, creates, stores and takes its own; then
    thread 0 stores and takes the one it created. Two locks exist for the
    class and both are held at once. *)
Theorem C6_guard_created_twice :
  ∃ cfg,
    Threads.steps (Threads.deliver_all "A" 2 library) cfg
    ∧ next_lock (Threads.shared cfg) = 2
    ∧ held (Threads.shared cfg) = {[0; 1]}.
Proof.
  exists (Threads.schedule race_to_the_guard (Threads.deliver_all "A" 2 library)).
  split; [apply schedule_steps|]. split; by vm_compute.
Qed.

(** C7 (what the code does): of 50 threads delivering to fresh class [A],
    threads 0 and 1 race as above and are inside the guarded block together;
    both find nothing captured and both capture. All 50 deliveries return,
    and the capture step has run twice. *)
Theorem C7_two_threads_inside :
  ∃ mid final,
    Threads.steps (Threads.deliver_all "A" 50 library) mid
    ∧ threads_inside (Threads.shared mid) "A" = 2
    ∧ Threads.steps mid final
    ∧ forallb Threads.returned (Threads.pool final) = true
    ∧ captures (Threads.shared final) "A" = 2
    ∧ mro_lookup (Threads.shared final) "A" "requires_context" = Some VFalse.
Proof.
  exists (Threads.schedule race_to_the_guard (Threads.deliver_all "A" 50 library)).
  exists (Threads.schedule (race_to_the_guard ++ both_capture_then_all_finish)
            (Threads.deliver_all "A" 50 library)).
  split; [apply schedule_steps|]. split; [by vm_compute|].
  split; [rewrite schedule_app; apply schedule_steps|].
  split_and!; by vm_compute.
Qed.

(* ===================================================================== *)
(** ** The guard around a delivery *)
(* ===================================================================== *)

Section guard_facts.
Implicit Types (w : world) (cls : string) (ctx : pyval).

Lemma critical_bind {A B : Type} (p : prog A) (f : A → prog B) :
  critical p → (∀ a, critical (f a)) → critical (p ≫= f).
Proof.
  intros Hp Hf. induction p as [a|e|C i k IH]; simpl; [apply Hf|done|].
  destruct Hp as [Hi Hk]. split; [done|]. intros b. by apply IH.
Qed.

Lemma critical_or_raise {A : Type} e (o : option A) : critical (or_raise e o).
Proof. by destruct o. Qed.

Lemma critical_getattr_cls cls a : critical (getattr_cls cls a).
Proof. split; [done|]. intros [v|]; [done|apply critical_or_raise]. Qed.

Lemma critical_setattr_cls cls a v :
  a ≠ "_dunder_call_lock" → critical (setattr_cls cls a v).
Proof. by split. Qed.

Lemma critical_guarded_body cls ctx : critical (guarded_body cls ctx).
Proof.
  unfold guarded_body.
  apply critical_bind; [apply critical_getattr_cls|]. intros original.
  apply critical_bind.
  - destruct (truthy original); [done|].
    apply critical_bind; [|intros _; by apply critical_setattr_cls].
    unfold Mixin._save_original_dunder_call.
    apply critical_bind; [apply critical_getattr_cls|]. by intros call.
  - intros _. unfold Mixin._provide_context_to_dunder_call.
    repeat first
      [ apply critical_bind; [|intros ?]
      | apply critical_getattr_cls
      | apply critical_or_raise
      | by apply critical_setattr_cls ].
Qed.

(** A guarded block never blocks and leaves the locks as they are. *)
Lemma run_critical {A : Type} (p : prog A) w :
  critical p →
  (run p w).2 ≠ Blocks
  ∧ held (run p w).1 = held w
  ∧ inside (run p w).1 = inside w
  ∧ next_lock (run p w).1 = next_lock w
  ∧ ∀ c, mro_lookup (run p w).1 c "_dunder_call_lock"
         = mro_lookup w c "_dunder_call_lock".
Proof.
  revert w. induction p as [a|e|B i k IH]; intros w Hp; [done..|].
  destruct Hp as [Hi Hk]. simpl.
  destruct i; simpl in Hi; try done; simpl.
  - apply IH, Hk.
  - destruct (IH () (setattr_world c a v w) (Hk ())) as (? & ? & ? & ? & Hlock).
    split_and!; try done. intros c'. rewrite Hlock.
    by apply mro_lookup_setattr_attr_ne.
  - destruct (IH () (log_capture c v (setattr_world c "_original_dunder_call" v w))
                (Hk ())) as (? & ? & ? & ? & Hlock).
    split_and!; try done. intros c'. rewrite Hlock.
    rewrite mro_lookup_log_capture. by apply mro_lookup_setattr_attr_ne.
Qed.

(** What a delivery does to the locks, whatever else it does: on a world
    whose guard can be taken, with or without an entry point. *)
Lemma delivery_guard self ctx w :
  guard_ready w (inst_class self) = true →
  ∃ l,
    (set_context self ctx w).2 ≠ Blocks
    ∧ held (set_context self ctx w).1 = held w
    ∧ inside (set_context self ctx w).1 = inside w
    ∧ next_lock (set_context self ctx w).1 = next_lock (ensure_guard (inst_class self) w)
    ∧ mro_lookup (set_context self ctx w).1 (inst_class self) "_dunder_call_lock"
      = Some (VLock l)
    ∧ mro_lookup (ensure_guard (inst_class self) w) (inst_class self) "_dunder_call_lock"
      = Some (VLock l)
    ∧ l ∉ held w.
Proof.
  destruct self as [cls addr]. simpl. intros Hg.
  destruct (run_guard _ _ Hg) as (l & Hrun & Hfree & Hlock). exists l.
  unfold set_context, Mixin.set_context. simpl inst_class.
  rewrite run_bind, Hrun.
  rewrite run_with_guard by (by rewrite held_ensure_guard).
  fold (guarded_body cls ctx).
  destruct (run_critical (guarded_body cls ctx) (acquire cls l (ensure_guard cls w))
              (critical_guarded_body cls ctx)) as (Hnb & Hheld & Hins & Hnext & Hlk).
  destruct (run (guarded_body cls ctx) (acquire cls l (ensure_guard cls w)))
    as [w' r]. cbn [fst snd] in Hnb, Hheld, Hins, Hnext, Hlk.
  assert (match r with Blocks => (w', Blocks) | _ => (release cls l w', r) end
          = (release cls l w', r)) as ->.
  { by destruct r. }
  cbn [fst snd]. split_and!; try done.
  - cbn [release held]. rewrite Hheld. cbn [acquire held].
    rewrite held_ensure_guard. apply set_eq. intros x.
    rewrite elem_of_difference, elem_of_union, elem_of_singleton.
    split; [by intros [[->|?] ?]|]. intros Hx. split; [by right|]. by intros ->.
  - cbn [release inside]. rewrite Hins. cbn [acquire inside remove_one].
    rewrite String.eqb_refl.
    unfold ensure_guard.
    destruct (mro_lookup w cls "_dunder_call_lock") as [g|]; [|done].
    by destruct (truthy g).
  - change (mro_lookup (release cls l w') cls "_dunder_call_lock")
      with (mro_lookup w' cls "_dunder_call_lock").
    by rewrite Hlk.
Qed.

End guard_facts.

(** X1: over any run of sequential deliveries on a class, at most one lock
    is created. When the class already reads a lock, no delivery creates
    another and the class keeps reading that one; when it reads none, the
    first delivery creates one and all later deliveries use it. *)
Theorem X1_guard_created_once self ctxs w :
  guard_ready w (inst_class self) = true →
  ctxs ≠ [] →
  (∀ l, mro_lookup w (inst_class self) "_dunder_call_lock" = Some (VLock l) →
     next_lock (deliveries self ctxs w) = next_lock w
     ∧ mro_lookup (deliveries self ctxs w) (inst_class self) "_dunder_call_lock"
       = Some (VLock l))
  ∧ (unguarded w (inst_class self) = true →
     next_lock (deliveries self ctxs w) = S (next_lock w)
     ∧ mro_lookup (deliveries self ctxs w) (inst_class self) "_dunder_call_lock"
       = Some (VLock (next_lock w))).
Proof.
  intros Hg Hne.
  assert (∀ ctxs w l,
    mro_lookup w (inst_class self) "_dunder_call_lock" = Some (VLock l) →
    l ∉ held w →
    next_lock (deliveries self ctxs w) = next_lock w
    ∧ mro_lookup (deliveries self ctxs w) (inst_class self) "_dunder_call_lock"
      = Some (VLock l)) as Hkeep.
  { clear. induction ctxs as [|ctx ctxs IH]; intros w l Hl Hfree; [done|].
    assert (guard_ready w (inst_class self) = true) as Hg.
    { unfold guard_ready. rewrite Hl. by apply bool_decide_eq_true. }
    destruct (delivery_guard self ctx w Hg)
      as (l' & _ & Hheld & _ & Hnext & Hl' & Hl0 & _).
    rewrite (ensure_guard_present _ _ _ Hl) in Hnext, Hl0 by done.
    rewrite Hl in Hl0. injection Hl0 as <-.
    cbn [deliveries]. destruct (IH _ l Hl') as [-> ->]; [by rewrite Hheld|].
    by rewrite Hnext. }
  split.
  - intros l Hl. apply Hkeep; [done|].
    unfold guard_ready in Hg. rewrite Hl in Hg. by apply bool_decide_eq_true in Hg.
  - intros Hu. destruct ctxs as [|ctx ctxs]; [done|].
    destruct (delivery_guard self ctx w Hg)
      as (l' & _ & Hheld & _ & Hnext & Hl' & Hl0 & Hfree).
    unfold unguarded in Hu.
    destruct (mro_lookup w (inst_class self) "_dunder_call_lock") as [g|] eqn:Hl;
      [|done].
    apply negb_true_iff in Hu.
    pose proof (lookup_in_is_class _ _ _ _ _ Hl) as Hcls.
    unfold ensure_guard in Hnext, Hl0. rewrite Hl, Hu in Hnext, Hl0.
    rewrite mro_lookup_setattr_eq in Hl0 by done. injection Hl0 as <-.
    cbn [deliveries]. destruct (Hkeep ctxs _ _ Hl') as [-> ->]; [by rewrite Hheld|].
    by rewrite Hnext.
Qed.

Lemma X1_guard_created_once_witness :
  next_lock (deliveries a1 [PyObj 7; PyObj 8; PyObj 9] library) = 1
  ∧ mro_lookup (deliveries a1 [PyObj 7; PyObj 8; PyObj 9] library) "A" "_dunder_call_lock"
    = Some (VLock 0).
Proof.
  destruct (X1_guard_created_once a1 [PyObj 7; PyObj 8; PyObj 9] library) as [_ Hnew].
  - vm_compute. reflexivity.
  - discriminate.
  - apply Hnew. vm_compute. reflexivity.
Defined.

(** X2: a delivery gives the guard back however it ends: it never blocks,
    the set of held locks and the threads inside guarded blocks are as
    before, also when the delivery raises or the class has no entry point
    at all, and the guard can be taken again. *)
Theorem X2_guard_released self ctx w :
  guard_ready w (inst_class self) = true →
  (set_context self ctx w).2 ≠ Blocks
  ∧ held (set_context self ctx w).1 = held w
  ∧ inside (set_context self ctx w).1 = inside w
  ∧ guard_ready (set_context self ctx w).1 (inst_class self) = true.
Proof.
  intros Hg.
  destruct (delivery_guard self ctx w Hg) as (l & Hnb & Hheld & Hins & _ & Hl & _ & Hfree).
  split_and!; try done.
  unfold guard_ready. rewrite Hl, Hheld. by apply bool_decide_eq_true.
Qed.

Lemma X2_guard_released_witness :
  (set_context e1 (PyObj 7) library).2 = Raises IndexError
  ∧ held (set_context e1 (PyObj 7) library).1 = ∅
  ∧ guard_ready (set_context e1 (PyObj 7) library).1 "E" = true.
Proof.
  destruct (X2_guard_released e1 (PyObj 7) library) as (_ & Hheld & _ & Hg).
  - vm_compute. reflexivity.
  - split; [by vm_compute|]. split; [exact Hheld|exact Hg].
Defined.

(* ===================================================================== *)
(** ** Deliveries that fail, and what invocations see *)
(* ===================================================================== *)

(** X3: a first delivery that raises because the entry point has no context
    slot is not undone: the entry point is captured, the flag is [False]
    and the class's own [__call__] holds the unwrapped entry point. *)
Theorem X3_failed_delivery_half_patches self ctx w call x :
  guard_ready w (inst_class self) = true →
  unpatched w (inst_class self) = true →
  mro_lookup w (inst_class self) "__call__" = Some call →
  context_slot (class_get call) = inl x →
  (set_context self ctx w).2 = Raises x
  ∧ mro_lookup (set_context self ctx w).1 (inst_class self) "_original_dunder_call"
    = Some (class_get call)
  ∧ mro_lookup (set_context self ctx w).1 (inst_class self) "requires_context"
    = Some VFalse
  ∧ own_attr (set_context self ctx w).1 (inst_class self) "__call__"
    = Some (class_get call)
  ∧ captures (set_context self ctx w).1 (inst_class self)
    = S (captures w (inst_class self)).
Proof.
  intros Hg Hu Hcall Hslot.
  destruct (delivery_first self ctx w call Hg Hu Hcall) as (_ & Ho & Hlog & Hflag).
  assert (original_entry w (inst_class self) = Some (class_get call)) as He.
  { apply unpatched_cases in Hu as (o & Ho' & Ht).
    unfold original_entry, class_getattr. by rewrite Ho'; simpl; rewrite Ht, Hcall. }
  destruct (delivery_effect self ctx w _ Hg He) as (_ & _ & Hown & _).
  split_and!; try done.
  - rewrite (set_context_explicit _ _ _ _ Hg He). unfold delivery_outcome.
    by rewrite Hslot.
  - rewrite Hown. unfold rebound. by rewrite Hslot.
  - by apply (captures_snoc _ _ (class_get call)).
Qed.

Lemma X3_failed_delivery_half_patches_witness :
  (set_context e1 (PyObj 7) library).2 = Raises IndexError
  ∧ mro_lookup (set_context e1 (PyObj 7) library).1 "E" "requires_context" = Some VFalse
  ∧ own_attr (set_context e1 (PyObj 7) library).1 "E" "__call__" = Some (VFunc echo_ctx).
Proof.
  destruct (X3_failed_delivery_half_patches e1 (PyObj 7) library (VFunc echo_ctx) IndexError)
    as (Hout & _ & Hflag & Hown & _).
  - vm_compute. reflexivity.
  - vm_compute. reflexivity.
  - vm_compute. reflexivity.
  - reflexivity.
  - split; [exact Hout|]. split; [exact Hflag|exact Hown].
Defined.

(** X4: how a delivery ends depends neither on the context delivered nor
    on the deliveries before it: a class whose entry point has no context
    slot raises on every delivery, one that has it never raises. *)
Theorem X4_same_outcome_every_time self ctxs ctx ctx' w e :
  guard_ready w (inst_class self) = true →
  original_entry w (inst_class self) = Some e →
  (set_context self ctx (deliveries self ctxs w)).2 = (set_context self ctx' w).2.
Proof.
  intros Hg He.
  destruct (deliveries_invariant self ctxs w e Hg He) as [Hg' He'].
  by rewrite (set_context_explicit _ _ _ _ Hg' He'), (set_context_explicit _ _ _ _ Hg He).
Qed.

Lemma X4_same_outcome_every_time_witness :
  (set_context e1 (PyObj 9) (deliveries e1 [PyObj 7; PyObj 8] library)).2
  = Raises IndexError.
Proof.
  rewrite (X4_same_outcome_every_time e1 [PyObj 7; PyObj 8] (PyObj 9) (PyObj 7)
             library (VFunc echo_ctx)).
  - vm_compute. reflexivity.
  - vm_compute. reflexivity.
  - vm_compute. reflexivity.
Defined.

Section invocations.
Implicit Types (w : world) (ctx : pyval).

Lemma params_three f name :
  co_argcount f = 3 → co_varnames f !! 2 = Some name →
  ∃ p0 p1, params f = [p0; p1; name].
Proof.
  unfold params. intros -> Hname.
  destruct (co_varnames f) as [|p0 [|p1 [|p2 rest]]]; try done.
  injection Hname as ->. by exists p0, p1.
Qed.

(** After a delivery that found the context slot, an instance of the class
    is invoked through the partialmethod. *)
Lemma invoke_rebound self other ctx w f name pos kw :
  guard_ready w (inst_class self) = true →
  original_entry w (inst_class self) = Some (VFunc f) →
  co_varnames f !! 2 = Some name →
  inst_class other = inst_class self →
  call_instance (set_context self ctx w).1 other pos kw
  = call_function f (self_arg other :: pos) (kw ∪ {[name := ctx]}).
Proof.
  intros Hg He Hname Hcls.
  destruct (delivery_effect self ctx w _ Hg He) as (_ & _ & Hcall & Hb).
  pose proof (original_entry_is_class _ _ _ He) as Hc.
  unfold call_instance. rewrite Hcls.
  rewrite (mro_lookup_own _ _ _ (rebound (VFunc f) ctx)); [|by rewrite Hb|done].
  unfold rebound, context_slot. simpl. by rewrite Hname.
Qed.

(** A third parameter given both positionally and by keyword. *)
Lemma bind_args_third_twice p0 p1 name s v c ctx :
  bind_args [p0; p1; name] [s; v; c] {[name := ctx]} = None.
Proof.
  unfold bind_args. simpl. rewrite dom_singleton_L.
  rewrite (bool_decide_eq_true_2 (_ ∩ _ ≠ ∅)); [done|].
  intros Hempty. apply (not_elem_of_empty (C:=gset string) name).
  rewrite <- Hempty, elem_of_intersection, !elem_of_union, !elem_of_singleton. auto.
Qed.

End invocations.

(** X5: the context delivered through one instance is the context every
    instance of the class is invoked with: the rebinding is on the class. *)
Theorem X5_context_shared_by_instances self other ctx v w f name :
  guard_ready w (inst_class self) = true →
  original_entry w (inst_class self) = Some (VFunc f) →
  co_argcount f = 3 →
  NoDup (params f) →
  co_varnames f !! 2 = Some name →
  inst_class other = inst_class self →
  call_instance (set_context self ctx w).1 other [v] ∅
  = call_function f [self_arg other; v; ctx] ∅.
Proof.
  intros Hg He Hargs Hnd Hname Hcls.
  rewrite (invoke_rebound self other ctx w f name) by done.
  rewrite (left_id_L ∅ (∪)). unfold call_function.
  destruct (params_three f name Hargs Hname) as (p0 & p1 & Hps).
  rewrite Hps in *. rewrite bind_args_third_by_keyword by done.
  by rewrite bind_args_positional.
Qed.

Lemma X5_context_shared_by_instances_witness :
  call_instance (set_context a1 (PyObj 7) library).1 a2 [PyInt 5] ∅ = Returns (PyObj 7).
Proof.
  rewrite (X5_context_shared_by_instances a1 a2 (PyObj 7) (PyInt 5) library
             echo_field "serializer_field").
  - vm_compute. reflexivity.
  - vm_compute. reflexivity.
  - vm_compute. reflexivity.
  - reflexivity.
  - apply (bool_decide_unpack _). vm_compute. exact I.
  - reflexivity.
  - reflexivity.
Defined.

(** X6: once a context is delivered, a caller of the newer convention who
    passes the context as second positional argument gets a [TypeError]
    (the slot is given twice), while a context passed by keyword under the
    slot's name replaces the delivered one for that call. *)
Theorem X6_explicit_context_after_delivery self ctx v c w f name :
  guard_ready w (inst_class self) = true →
  original_entry w (inst_class self) = Some (VFunc f) →
  co_argcount f = 3 →
  NoDup (params f) →
  co_varnames f !! 2 = Some name →
  call_instance (set_context self ctx w).1 self [v; c] ∅ = Raises TypeError
  ∧ call_instance (set_context self ctx w).1 self [v] {[name := c]}
    = call_function f [self_arg self; v; c] ∅.
Proof.
  intros Hg He Hargs Hnd Hname.
  destruct (params_three f name Hargs Hname) as (p0 & p1 & Hps).
  rewrite !(invoke_rebound self self ctx w f name) by done.
  unfold call_function. rewrite Hps in *. split.
  - by rewrite (left_id_L ∅ (∪)), bind_args_third_twice.
  - assert (({[name := c]} : gmap string pyval) ∪ {[name := ctx]} = {[name := c]}) as ->.
    { apply map_eq. intros k. rewrite lookup_union.
      destruct (decide (k = name)) as [->|Hne].
      - by rewrite !lookup_singleton_eq.
      - by rewrite !lookup_singleton_ne. }
    rewrite bind_args_third_by_keyword by done.
    by rewrite bind_args_positional.
Qed.

Lemma X6_explicit_context_after_delivery_witness :
  call_instance (set_context a1 (PyObj 7) library).1 a1 [PyInt 5; PyObj 9] ∅
    = Raises TypeError
  ∧ call_instance (set_context a1 (PyObj 7) library).1 a1 [PyInt 5]
      {["serializer_field" := PyObj 9]} = Returns (PyObj 9).
Proof.
  destruct (X6_explicit_context_after_delivery a1 (PyObj 7) (PyInt 5) (PyObj 9) library
              echo_field "serializer_field") as [Hpos Hkw].
  - vm_compute. reflexivity.
  - vm_compute. reflexivity.
  - reflexivity.
  - apply (bool_decide_unpack _). vm_compute. exact I.
  - reflexivity.
  - split; [exact Hpos|]. rewrite Hkw. vm_compute. reflexivity.
Defined.

(* ===================================================================== *)
(** ** Deliveries on a class that reads a captured entry point *)
(* ===================================================================== *)

Section patched_facts.
Implicit Types (w : world) (cls : string) (ctx : pyval).

Lemma setattr_world_twice c a v1 v2 w :
  setattr_world c a v2 (setattr_world c a v1 w) = setattr_world c a v2 w.
Proof. apply world_eq; simpl; try done. apply insert_insert_eq. Qed.

Lemma setattr_world_commute c1 a1 v1 c2 a2 v2 w :
  a1 ≠ a2 →
  setattr_world c1 a1 v1 (setattr_world c2 a2 v2 w)
  = setattr_world c2 a2 v2 (setattr_world c1 a1 v1 w).
Proof.
  intros Hne. apply world_eq; simpl; try done.
  apply insert_insert_ne. congruence.
Qed.

Lemma ensure_guard_setattr cls c a v w :
  a ≠ "_dunder_call_lock" →
  ensure_guard cls (setattr_world c a v w) = setattr_world c a v (ensure_guard cls w).
Proof.
  intros Ha. unfold ensure_guard. rewrite mro_lookup_setattr_attr_ne by done.
  destruct (mro_lookup w cls "_dunder_call_lock") as [g|]; [|done].
  destruct (truthy g); [done|].
  apply world_eq; simpl; try done. apply insert_insert_ne. congruence.
Qed.

Lemma own_attr_rebind cls ctx w c a :
  a ≠ "__call__" → own_attr (rebind cls ctx w) c a = own_attr w c a.
Proof.
  intros Ha. unfold rebind.
  destruct (mro_lookup w cls "_original_dunder_call"); [|done].
  unfold own_attr. simpl. apply lookup_insert_ne. congruence.
Qed.

Lemma own_attr_ensure_guard cls w c a :
  a ≠ "_dunder_call_lock" → own_attr (ensure_guard cls w) c a = own_attr w c a.
Proof.
  intros Ha. unfold ensure_guard.
  destruct (mro_lookup w cls "_dunder_call_lock") as [g|]; [|done].
  destruct (truthy g); [done|].
  unfold own_attr. simpl. apply lookup_insert_ne. congruence.
Qed.

(** The closed form of a delivery on a class that reads a captured entry
    point. *)
Lemma set_context_patched self ctx w o :
  guard_ready w (inst_class self) = true →
  mro_lookup w (inst_class self) "_original_dunder_call" = Some o →
  truthy o = true →
  set_context self ctx w
  = (setattr_world (inst_class self) "__call__" (rebound (class_get o) ctx)
       (ensure_guard (inst_class self) w),
     delivery_outcome (class_get o)).
Proof.
  intros Hg Ho Ht. set (cls := inst_class self) in *.
  assert (original_entry w cls = Some (class_get o)) as He.
  { unfold original_entry. by rewrite Ho; simpl; rewrite Ht. }
  rewrite (set_context_explicit _ _ _ _ Hg He). fold cls.
  assert (mro_lookup (ensure_guard cls w) cls "_original_dunder_call" = Some o) as Ho'.
  { by rewrite mro_lookup_ensure_guard. }
  rewrite (ensure_captured_present _ _ _ Ho' Ht). unfold rebind. by rewrite Ho'.
Qed.

End patched_facts.

(** X7: once the entry point of a class is captured, whatever is stored in
    the class's [__call__] afterwards is discarded by the next delivery,
    which rebinds from the captured entry point: the delivery ends in the
    same world and the same way as if nothing had been stored. *)
Theorem X7_later_call_discarded self ctx w o v :
  guard_ready w (inst_class self) = true →
  mro_lookup w (inst_class self) "_original_dunder_call" = Some o →
  truthy o = true →
  set_context self ctx (setattr_world (inst_class self) "__call__" v w)
  = set_context self ctx w.
Proof.
  intros Hg Ho Ht. set (cls := inst_class self) in *.
  rewrite (set_context_patched self ctx w o) by done.
  rewrite (set_context_patched self ctx _ o); fold cls.
  - by rewrite ensure_guard_setattr, setattr_world_twice.
  - unfold guard_ready in *. by rewrite mro_lookup_setattr_attr_ne.
  - by rewrite mro_lookup_setattr_attr_ne.
  - done.
Qed.

Lemma X7_later_call_discarded_witness :
  call_instance
    (set_context a1 (PyObj 8)
       (setattr_world "A" "__call__" (VFunc check_value)
          (set_context a1 (PyObj 7) library).1)).1
    a1 [PyInt 5] ∅
  = Returns (PyObj 8).
Proof.
  pose proof (X7_later_call_discarded a1 (PyObj 8) (set_context a1 (PyObj 7) library).1
                (VFunc echo_field) (VFunc check_value)) as Hsame.
  change (inst_class a1) with "A" in Hsame. rewrite Hsame.
  - vm_compute. reflexivity.
  - vm_compute. reflexivity.
  - vm_compute. reflexivity.
  - reflexivity.
Defined.

(** X8: a class that reads a captured entry point it does not own, a
    subclass of a class already delivered to, is rebound to that inherited
    entry point whatever [__call__] it defines itself; nothing is captured
    for it, it gets no captured slot and no lock of its own, and its own
    [requires_context] is left as it is. *)
Theorem X8_subclass_of_patched_class self ctx w o l :
  mro_lookup w (inst_class self) "_dunder_call_lock" = Some (VLock l) →
  l ∉ held w →
  mro_lookup w (inst_class self) "_original_dunder_call" = Some o →
  truthy o = true →
  own_attr w (inst_class self) "_original_dunder_call" = None →
  own_attr (set_context self ctx w).1 (inst_class self) "__call__"
    = Some (rebound (class_get o) ctx)
  ∧ own_attr (set_context self ctx w).1 (inst_class self) "_original_dunder_call" = None
  ∧ own_attr (set_context self ctx w).1 (inst_class self) "_dunder_call_lock"
    = own_attr w (inst_class self) "_dunder_call_lock"
  ∧ own_attr (set_context self ctx w).1 (inst_class self) "requires_context"
    = own_attr w (inst_class self) "requires_context"
  ∧ capture_log (set_context self ctx w).1 = capture_log w.
Proof.
  intros Hl Hfree Ho Ht Hown. set (cls := inst_class self) in *.
  assert (guard_ready w cls = true) as Hg.
  { unfold guard_ready. rewrite Hl. by apply bool_decide_eq_true. }
  rewrite (set_context_patched self ctx w o) by done. fold cls. cbn [fst].
  rewrite (ensure_guard_present _ _ _ Hl) by done.
  unfold own_attr in *. simpl. split_and!; try done.
  - apply lookup_insert_eq.
  - by rewrite lookup_insert_ne.
  - by rewrite lookup_insert_ne.
  - by rewrite lookup_insert_ne.
Qed.

Lemma X8_subclass_of_patched_class_witness :
  own_attr (set_context b1 (PyObj 8) (set_context a1 (PyObj 7) library_override).1).1
    "B" "__call__"
  = Some (VPartialMethod (VFunc echo_field) {["serializer_field" := PyObj 8]})
  ∧ own_attr (set_context b1 (PyObj 8) (set_context a1 (PyObj 7) library_override).1).1
      "B" "requires_context"
    = Some VTrue.
Proof.
  destruct (X8_subclass_of_patched_class b1 (PyObj 8)
              (set_context a1 (PyObj 7) library_override).1 (VFunc echo_field) 0)
    as (Hcall & _ & _ & Hflag & _).
  - vm_compute. reflexivity.
  - apply (bool_decide_unpack _). vm_compute. exact I.
  - vm_compute. reflexivity.
  - reflexivity.
  - vm_compute. reflexivity.
  - split; [exact Hcall|]. change (inst_class b1) with "B" in Hflag.
    rewrite Hflag. vm_compute. reflexivity.
Defined.

(* ===================================================================== *)
(** ** Deliveries from several threads, once the guard exists *)
(* ===================================================================== *)

Section serialization.
Import Threads.
Context (cls : string) (l : nat).

Lemma finished_awaits p : finished p → awaits_guard cls l p.
Proof. by destruct p. Qed.

(** The guarded block, wrapped in the release of the guard, is a thread
    inside. *)
Lemma critical_holds_guard (q : prog unit) :
  critical q → holds_guard cls l (finally q (Act (IRelease cls l) Ret)).
Proof.
  induction q as [a|e|B i k IH]; intros Hq; [done..|].
  destruct Hq as [Hi Hk]. simpl.
  destruct i; simpl in Hi |- *; try done.
  - intros o. apply IH, Hk.
  - split; [done|]. apply IH, Hk.
  - apply IH, Hk.
Qed.

Lemma awaits_with_guard (body : prog unit) :
  critical body → awaits_guard cls l (with_guard cls (VLock l) body).
Proof.
  intros Hbody. simpl. split_and!; [done..|]. by apply critical_holds_guard.
Qed.

(** The guard property, in a world where [cls] reads [l], hands [l] out. *)
Lemma awaits_guard_property (f : value → prog unit) :
  awaits_guard cls l (f (VLock l)) →
  awaits_guard cls l (Mixin._dunder_call_modification_guard cls ≫= f).
Proof.
  intros Hf. unfold Mixin._dunder_call_modification_guard. simpl.
  intros o Ho. rewrite (Ho eq_refl eq_refl). simpl.
  intros o' Ho'. by rewrite (Ho' eq_refl eq_refl).
Qed.

(** A delivery starts outside. *)
Lemma set_context_awaits_guard self ctx :
  inst_class self = cls → awaits_guard cls l (Mixin.set_context self ctx).
Proof.
  intros Hcls. unfold Mixin.set_context. rewrite Hcls.
  fold (guarded_body cls ctx).
  apply (awaits_guard_property (λ guard, with_guard cls guard (guarded_body cls ctx))).
  apply awaits_with_guard, critical_guarded_body.
Qed.

Lemma threads_inside_release w :
  threads_inside (release cls l w) cls = pred (threads_inside w cls).
Proof.
  unfold threads_inside. simpl. induction (inside w) as [|x xs IH]; [done|].
  simpl. destruct (String.eqb_spec cls x) as [->|Hne].
  - by rewrite filter_cons_True.
  - rewrite !filter_cons_False by congruence. apply IH.
Qed.

(** One step keeps the deliveries serialized. *)
Lemma step_serialized cfg cfg' :
  step cfg cfg' → serialized cls l cfg → serialized cls l cfg'.
Proof.
  intros Hstep [Hlock Hcase].
  destruct Hstep as [w w' ts t B i k b Hts Hexec]. simpl in *.
  pose proof (lookup_lt_Some _ _ _ Hts) as Hlt.
  destruct Hcase as [(Hfree & Hnone & Hall)|(Hheld & Hone & t0 & p0 & Ht0 & Hp0 & Hrest)].
  - (* the lock is free: the thread is outside *)
    pose proof (Hall _ _ Hts) as Hp. simpl in Hp.
    destruct i; simpl in Hp, Hexec; try done.
    + (* a lookup *)
      injection Hexec as <- <-. unfold serialized; cbn [shared pool]. split; [done|]. left. split_and!; [done..|].
      intros t' p' Hp'. apply list_lookup_insert_Some in Hp' as [(<- & <- & _)|[_ Hp']].
      * apply Hp. intros -> ->. done.
      * by eapply Hall.
    + (* it takes the lock *)
      destruct Hp as (-> & -> & Hk).
      rewrite bool_decide_eq_false_2 in Hexec by done.
      injection Hexec as <- <-. unfold serialized; cbn [shared pool]. split; [done|]. right. split_and!.
      * simpl. apply elem_of_union_l. by apply elem_of_singleton.
      * unfold threads_inside in *. simpl. rewrite filter_cons_True by done.
        simpl. by rewrite Hnone.
      * exists t, (k ()). split_and!; [by apply list_lookup_insert_eq|done|].
        intros t' p' Hne Hp'. cbn [pool] in Hp'.
        rewrite list_lookup_insert_ne in Hp' by done.
        by eapply Hall.
  - (* the lock is held by thread t0 *)
    destruct (decide (t = t0)) as [->|Hne].
    + rewrite Ht0 in Hts. injection Hts as ->. simpl in Hp0.
      destruct i; simpl in Hp0, Hexec; try done.
      * injection Hexec as <- <-. unfold serialized; cbn [shared pool]. split; [done|]. right. split_and!; [done..|].
        exists t0, (k (mro_lookup w c a)).
        split_and!; [by apply list_lookup_insert_eq|apply Hp0|].
        intros t' p' Hne Hp'. cbn [pool] in Hp'.
        rewrite list_lookup_insert_ne in Hp' by done.
        by eapply Hrest.
      * destruct Hp0 as [Ha Hk]. injection Hexec as <- <-. unfold serialized; cbn [shared pool]. split.
        { by rewrite mro_lookup_setattr_attr_ne. }
        right. split_and!; [done..|]. exists t0, (k ()).
        split_and!; [by apply list_lookup_insert_eq|done|].
        intros t' p' Hne Hp'. cbn [pool] in Hp'.
        rewrite list_lookup_insert_ne in Hp' by done.
        by eapply Hrest.
      * injection Hexec as <- <-. unfold serialized; cbn [shared pool]. split.
        { rewrite mro_lookup_log_capture. by rewrite mro_lookup_setattr_attr_ne. }
        right. split_and!; [done..|]. exists t0, (k ()).
        split_and!; [by apply list_lookup_insert_eq|done|].
        intros t' p' Hne Hp'. cbn [pool] in Hp'.
        rewrite list_lookup_insert_ne in Hp' by done.
        by eapply Hrest.
      * destruct Hp0 as (-> & -> & Hk). injection Hexec as <- <-. unfold serialized; cbn [shared pool].
        split; [done|]. left. split_and!.
        -- simpl. rewrite elem_of_difference, elem_of_singleton. by intros [_ []].
        -- by rewrite threads_inside_release, Hone.
        -- intros t' p' Hp'.
           apply list_lookup_insert_Some in Hp' as [(<- & <- & _)|[Hne Hp']].
           ++ by apply finished_awaits.
           ++ eapply Hrest; [|done]. done.
    + pose proof (Hrest _ _ Hne Hts) as Hp. simpl in Hp.
      destruct i; simpl in Hp, Hexec; try done.
      * injection Hexec as <- <-. unfold serialized; cbn [shared pool]. split; [done|]. right. split_and!; [done..|].
        exists t0, p0. split_and!; [by rewrite list_lookup_insert_ne|done|].
        intros t' p' Hne' Hp'.
        apply list_lookup_insert_Some in Hp' as [(<- & <- & _)|[_ Hp']].
        -- apply Hp. intros -> ->. done.
        -- by eapply Hrest.
      * destruct Hp as (-> & -> & _). by rewrite bool_decide_eq_true_2 in Hexec.
Qed.

Lemma steps_serialized cfg cfg' :
  steps cfg cfg' → serialized cls l cfg → serialized cls l cfg'.
Proof.
  intros Hsteps. induction Hsteps as [|cfg1 cfg2 cfg3 Hstep _ IH]; [done|].
  intros Hinv. by apply IH, (step_serialized cfg1).
Qed.

Lemma spawn_serialized requests w :
  mro_lookup w cls "_dunder_call_lock" = Some (VLock l) →
  l ∉ held w →
  threads_inside w cls = 0 →
  serialized cls l (spawn cls requests w).
Proof.
  intros Hlock Hfree Hnone. split; [done|]. left. split_and!; [done..|].
  intros t p Hp. simpl in Hp. rewrite list_lookup_fmap in Hp.
  destruct (requests !! t) as [[addr ctx]|]; [|done].
  injection Hp as <-. by apply set_context_awaits_guard.
Qed.

(** A thread is not both inside and outside the block. *)
Lemma holds_not_awaits (p : prog unit) :
  holds_guard cls l p → awaits_guard cls l p → False.
Proof.
  induction p as [a|e|B i k IH]; [done..|]. simpl.
  destruct i; simpl; try done.
  intros Hin Hout. apply (IH (Some (VLock l))); [apply Hin|].
  apply Hout. by intros _ _.
Qed.

(** A thread outside the block is not about to store. *)
Lemma awaits_not_stores (p : prog unit) :
  awaits_guard cls l p → stores_next p → False.
Proof.
  destruct p as [a|e|B i k]; [done..|]. simpl.
  destruct i; simpl; try done; by intros _ [? [=]].
Qed.

(** What the invariant gives for the threads themselves. *)
Lemma serialized_exclusion cfg :
  serialized cls l cfg →
  (∀ t p, pool cfg !! t = Some p → stores_next p →
          holds_guard cls l p ∧ l ∈ held (shared cfg))
  ∧ (∀ t t' p p', pool cfg !! t = Some p → pool cfg !! t' = Some p' →
                  holds_guard cls l p → holds_guard cls l p' → t = t')
  ∧ threads_inside (shared cfg) cls ≤ 1.
Proof.
  intros [_ [(Hfree & Hnone & Hall)|(Hheld & Hone & t0 & p0 & Ht0 & Hp0 & Hrest)]].
  - split_and!.
    + intros t p Hp Hst. by destruct (awaits_not_stores p (Hall _ _ Hp)).
    + intros t t' p p' Hp _ Hin _. by destruct (holds_not_awaits p Hin (Hall _ _ Hp)).
    + lia.
  - assert (∀ t p, pool cfg !! t = Some p → ¬ awaits_guard cls l p → t = t0) as Hwho.
    { intros t p Hp Hnot. destruct (decide (t = t0)) as [|Hne]; [done|].
      exfalso. by apply Hnot, (Hrest _ _ Hne Hp). }
    split_and!.
    + intros t p Hp Hst.
      assert (t = t0) as -> by (eapply Hwho; [done|]; intros Hout;
                                  by apply (awaits_not_stores p)).
      rewrite Ht0 in Hp. by injection Hp as <-.
    + intros t t' p p' Hp Hp' Hin Hin'.
      rewrite (Hwho t p Hp), (Hwho t' p' Hp'); [done| |].
      * intros Hout. by apply (holds_not_awaits p').
      * intros Hout. by apply (holds_not_awaits p).
    + lia.
Qed.

End serialization.

(** X9: once a class reads a lock, deliveries to it from any number of
    threads are serialized. In every state any interleaving can reach: the
    class still reads that lock and the threads are all outside the guarded
    block, or all but one which is inside and holds the lock; a thread
    whose next step is one of the stores of the block is inside and the
    lock is held; no two threads are inside. *)
Theorem X9_serialized_once_guard_exists cls l requests w cfg :
  mro_lookup w cls "_dunder_call_lock" = Some (VLock l) →
  l ∉ held w →
  threads_inside w cls = 0 →
  Threads.steps (spawn cls requests w) cfg →
  serialized cls l cfg
  ∧ (∀ t p, Threads.pool cfg !! t = Some p → stores_next p →
            holds_guard cls l p ∧ l ∈ held (Threads.shared cfg))
  ∧ (∀ t t' p p', Threads.pool cfg !! t = Some p → Threads.pool cfg !! t' = Some p' →
                  holds_guard cls l p → holds_guard cls l p' → t = t')
  ∧ threads_inside (Threads.shared cfg) cls ≤ 1.
Proof.
  intros Hlock Hfree Hnone Hsteps.
  pose proof (steps_serialized cls l _ _ Hsteps
                (spawn_serialized cls l requests w Hlock Hfree Hnone)) as Hinv.
  split; [done|]. by apply serialized_exclusion.
Qed.

Lemma X9_serialized_once_guard_exists_witness :
  serialized "A" 0
    (Threads.schedule contended
       (spawn "A" three_requests (set_context a1 (PyObj 7) library).1))
  ∧ threads_inside
      (Threads.shared
         (Threads.schedule contended
            (spawn "A" three_requests (set_context a1 (PyObj 7) library).1)))
      "A" ≤ 1.
Proof.
  destruct (X9_serialized_once_guard_exists "A" 0 three_requests
              (set_context a1 (PyObj 7) library).1
              (Threads.schedule contended
                 (spawn "A" three_requests (set_context a1 (PyObj 7) library).1)))
    as (Hinv & _ & _ & Hle).
  - vm_compute. reflexivity.
  - apply (bool_decide_unpack _). vm_compute. exact I.
  - vm_compute. reflexivity.
  - apply schedule_steps.
  - split; [exact Hinv|exact Hle].
Defined.

Section patched_threads.
Import Threads.
Context (cls : string) (l : nat) (o : value).

Lemma settled_bind {A B : Type} (p : prog A) (f : A → prog B) :
  settled cls l o p → (∀ a, settled cls l o (f a)) → settled cls l o (p ≫= f).
Proof.
  intros Hp Hf. induction p as [a|e|C i k IH]; simpl; [apply Hf|done|].
  simpl in Hp. destruct i; simpl in Hp |- *; try done.
  - intros r H1 H2. apply IH. by apply Hp.
  - destruct Hp as (? & ? & ?). split_and!; [done..|]. by apply IH.
  - by apply IH.
  - by apply IH.
Qed.

Lemma settled_finally {A : Type} (p : prog A) (cleanup : prog unit) :
  settled cls l o p → settled cls l o cleanup → settled cls l o (finally p cleanup).
Proof.
  intros Hp Hc. induction p as [a|e|C i k IH]; simpl.
  - by apply (settled_bind cleanup).
  - by apply (settled_bind cleanup (λ _, Throw e)).
  - simpl in Hp. destruct i; simpl in Hp |- *; try done.
    + intros r H1 H2. apply IH. by apply Hp.
    + destruct Hp as (? & ? & ?). split_and!; [done..|]. by apply IH.
    + by apply IH.
    + by apply IH.
Qed.

Lemma settled_or_raise {A : Type} e (x : option A) : settled cls l o (or_raise e x).
Proof. by destruct x. Qed.

Lemma settled_getattr_cls c a : settled cls l o (getattr_cls c a).
Proof. simpl. intros [v|] _ _; [done|apply settled_or_raise]. Qed.

(** A lookup the world answers with a known value continues with it. *)
Lemma settled_getattr_known {A : Type} a v (f : value → prog A) :
  (a = "_dunder_call_lock" ∧ v = VLock l ∨ a = "_original_dunder_call" ∧ v = o) →
  settled cls l o (f (class_get v)) →
  settled cls l o (getattr_cls cls a ≫= f).
Proof.
  intros Hknown Hf. simpl. intros r Hlock Horig.
  destruct Hknown as [[-> ->]|[-> ->]].
  - by rewrite (Hlock eq_refl eq_refl).
  - by rewrite (Horig eq_refl eq_refl).
Qed.

Lemma settled_provide ctx :
  settled cls l o (Mixin._provide_context_to_dunder_call cls ctx).
Proof.
  unfold Mixin._provide_context_to_dunder_call.
  repeat first
    [ apply settled_bind; [|intros ?]
    | apply settled_getattr_cls
    | apply settled_or_raise
    | by simpl ].
Qed.

(** The guard property, in a world where [cls] reads [l], hands [l] out. *)
Lemma settled_guard_property {A : Type} (f : value → prog A) :
  settled cls l o (f (VLock l)) →
  settled cls l o (Mixin._dunder_call_modification_guard cls ≫= f).
Proof.
  intros Hf. unfold Mixin._dunder_call_modification_guard. simpl.
  intros r Hlock _. rewrite (Hlock eq_refl eq_refl). simpl.
  intros r' Hlock' _. by rewrite (Hlock' eq_refl eq_refl).
Qed.

(** A delivery on the patched class is settled. *)
Lemma set_context_settled self ctx :
  inst_class self = cls → truthy o = true →
  settled cls l o (Mixin.set_context self ctx).
Proof.
  intros Hcls Ht. unfold Mixin.set_context. rewrite Hcls.
  fold (guarded_body cls ctx).
  apply (settled_guard_property (λ guard, with_guard cls guard (guarded_body cls ctx))).
  assert (settled cls l o (guarded_body cls ctx)) as Hbody.
  { unfold guarded_body.
    apply (settled_getattr_known "_original_dunder_call" o); [by right|].
    rewrite truthy_class_get, Ht.
    apply settled_bind; [done|]. intros _. apply settled_provide. }
  revert Hbody. generalize (guarded_body cls ctx). intros body Hbody.
  simpl. by apply settled_finally.
Qed.

(** One step of a settled thread keeps what [only_call_rebound] keeps. *)
Lemma step_settled w0 cfg cfg' :
  step cfg cfg' →
  mro_lookup w0 cls "_dunder_call_lock" = Some (VLock l) →
  mro_lookup w0 cls "_original_dunder_call" = Some o →
  only_call_rebound cls w0 (shared cfg)
  ∧ (∀ t p, pool cfg !! t = Some p → settled cls l o p) →
  only_call_rebound cls w0 (shared cfg')
  ∧ (∀ t p, pool cfg' !! t = Some p → settled cls l o p).
Proof.
  intros Hstep Hlock Horig [(Hlog & Hnext & Hattrs & Hothers) Hall].
  destruct Hstep as [w w' ts t B i k b Hts Hexec]. cbn [shared pool] in *.
  pose proof (Hall _ _ Hts) as Hp. simpl in Hp.
  assert (∀ b', settled cls l o (k b') →
            ∀ t' p', <[t := k b']> ts !! t' = Some p' → settled cls l o p') as Hpool.
  { intros b' Hk t' p' Hp'.
    apply list_lookup_insert_Some in Hp' as [(<- & <- & _)|[_ Hp']]; [done|].
    by eapply Hall. }
  destruct i; simpl in Hp, Hexec; try done.
  - injection Hexec as <- <-. split; [done|]. apply Hpool, Hp.
    + intros -> ->. by rewrite Hattrs.
    + intros -> ->. by rewrite Hattrs.
  - destruct Hp as (-> & -> & Hk). injection Hexec as <- <-.
    split; [|by apply Hpool]. split_and!; [done..| |].
    + intros c' a' Ha'. rewrite mro_lookup_setattr_attr_ne by done. by apply Hattrs.
    + intros c' a' Hc'. unfold own_attr in *. simpl.
      rewrite lookup_insert_ne by congruence. by apply Hothers.
  - case_bool_decide; [done|]. injection Hexec as <- <-.
    split; [done|]. by apply Hpool.
  - injection Hexec as <- <-. split; [done|]. by apply Hpool.
Qed.

Lemma steps_settled w0 cfg cfg' :
  steps cfg cfg' →
  mro_lookup w0 cls "_dunder_call_lock" = Some (VLock l) →
  mro_lookup w0 cls "_original_dunder_call" = Some o →
  only_call_rebound cls w0 (shared cfg)
  ∧ (∀ t p, pool cfg !! t = Some p → settled cls l o p) →
  only_call_rebound cls w0 (shared cfg').
Proof.
  intros Hsteps Hlock Horig.
  induction Hsteps as [|cfg1 cfg2 cfg3 Hstep _ IH]; [by intros [? _]|].
  intros Hinv. apply IH. by eapply step_settled.
Qed.

End patched_threads.

(** X10: on a class that reads a lock and a captured entry point, deliveries
    from any number of threads, however interleaved, write the [__call__]
    of the class and nothing else: nothing is captured again, no lock is
    created, the flag and every other attribute of every class read as
    before, and the other classes' dictionaries are untouched. *)
Theorem X10_patched_class_only_rebound cls l o requests w cfg :
  mro_lookup w cls "_dunder_call_lock" = Some (VLock l) →
  mro_lookup w cls "_original_dunder_call" = Some o →
  truthy o = true →
  Threads.steps (spawn cls requests w) cfg →
  capture_log (Threads.shared cfg) = capture_log w
  ∧ next_lock (Threads.shared cfg) = next_lock w
  ∧ (∀ c a, a ≠ "__call__" → mro_lookup (Threads.shared cfg) c a = mro_lookup w c a)
  ∧ (∀ c a, c ≠ cls → own_attr (Threads.shared cfg) c a = own_attr w c a).
Proof.
  intros Hlock Horig Ht Hsteps.
  assert (only_call_rebound cls w (Threads.shared (spawn cls requests w))
          ∧ (∀ t p, Threads.pool (spawn cls requests w) !! t = Some p →
                    settled cls l o p)) as Hinit.
  { split; [done|]. intros t p Hp. simpl in Hp. rewrite list_lookup_fmap in Hp.
    destruct (requests !! t) as [[addr ctx]|]; [|done].
    injection Hp as <-. by apply set_context_settled. }
  exact (steps_settled cls l o w _ _ Hsteps Hlock Horig Hinit).
Qed.

Lemma X10_patched_class_only_rebound_witness :
  captures
    (Threads.shared
       (Threads.schedule contended
          (spawn "A" three_requests (set_context a1 (PyObj 7) library).1)))
    "A" = 1
  ∧ mro_lookup
      (Threads.shared
         (Threads.schedule contended
            (spawn "A" three_requests (set_context a1 (PyObj 7) library).1)))
      "A" "requires_context" = Some VFalse.
Proof.
  destruct (X10_patched_class_only_rebound "A" 0 (VFunc echo_field) three_requests
              (set_context a1 (PyObj 7) library).1
              (Threads.schedule contended
                 (spawn "A" three_requests (set_context a1 (PyObj 7) library).1)))
    as (Hlog & _ & Hattrs & _).
  - vm_compute. reflexivity.
  - vm_compute. reflexivity.
  - reflexivity.
  - apply schedule_steps.
  - split.
    + unfold captures. rewrite Hlog. vm_compute. reflexivity.
    + rewrite Hattrs by done. vm_compute. reflexivity.
Defined.

(* ===================================================================== *)
(** ** A taken guard, and the window inside a delivery *)
(* ===================================================================== *)

(** X11: [threading.Lock] is not re-entrant: a delivery on a class whose
    lock is held blocks, and until then it has changed nothing. *)
Theorem X11_blocks_on_held_guard self ctx w l :
  mro_lookup w (inst_class self) "_dunder_call_lock" = Some (VLock l) →
  l ∈ held w →
  set_context self ctx w = (w, Blocks).
Proof.
  destruct self as [cls addr]. simpl. intros Hl Hheld.
  unfold set_context, Mixin.set_context. simpl inst_class.
  assert (run (Mixin._dunder_call_modification_guard cls) w = (w, Returns (VLock l)))
    as Hguard.
  { unfold Mixin._dunder_call_modification_guard.
    rewrite (run_getattr_cls _ _ (VLock l)) by done.
    simpl truthy. cbv iota. rewrite run_ret_bind.
    by rewrite (run_getattr_cls_last _ _ (VLock l)). }
  rewrite run_bind, Hguard. simpl. by rewrite bool_decide_eq_true_2.
Qed.

Lemma X11_blocks_on_held_guard_witness :
  set_context a1 (PyObj 8) (acquire "A" 0 (set_context a1 (PyObj 7) library).1)
  = (acquire "A" 0 (set_context a1 (PyObj 7) library).1, Blocks).
Proof.
  apply (X11_blocks_on_held_guard a1 (PyObj 8) _ 0).
  - vm_compute. reflexivity.
  - apply (bool_decide_unpack _). vm_compute. exact I.
Defined.

Section window.
Import Threads.

Lemma step_alone (w w' : world) {B : Type} (i : instr B) (k : B → prog unit) (b : B) cfg :
  exec i w = Some (w', b) →
  steps {| shared := w'; pool := [k b] |} cfg →
  steps {| shared := w; pool := [Act i k] |} cfg.
Proof.
  intros Hexec Hrest. eapply rtc_l; [|exact Hrest].
  by apply (step_thread w w' [Act i k] 0 B i k b).
Qed.

End window.

(** X12: a delivery on a patched class first stores the bare captured
    entry point in [__call__] and wraps it afterwards: it passes through a
    state, inside the guarded block, in which the class's [__call__] is the
    entry point without any context, whatever had been delivered before. *)
Theorem X12_unwrapped_window cls addr ctx w l o :
  mro_lookup w cls "_dunder_call_lock" = Some (VLock l) →
  l ∉ held w →
  mro_lookup w cls "_original_dunder_call" = Some o →
  truthy o = true →
  ∃ cfg,
    Threads.steps (spawn cls [(addr, ctx)] w) cfg
    ∧ (l ∈ held (Threads.shared cfg))
    ∧ mro_lookup (Threads.shared cfg) cls "__call__" = Some (class_get o).
Proof.
  intros Hl Hfree Ho Ht.
  pose proof (lookup_in_is_class _ _ _ _ _ Ho) as Hcls.
  unfold spawn. simpl. unfold Mixin.set_context. simpl inst_class.
  fold (guarded_body cls ctx).
  eexists. split.
  - unfold Mixin._dunder_call_modification_guard.
    eapply step_alone; [simpl; reflexivity|]. rewrite Hl. simpl.
    eapply step_alone; [simpl; reflexivity|]. rewrite Hl. simpl.
    eapply step_alone; [simpl; by rewrite bool_decide_eq_false_2|].
    eapply step_alone; [simpl; reflexivity|].
    rewrite mro_lookup_acquire, Ho. simpl. rewrite truthy_class_get, Ht. simpl.
    eapply step_alone; [simpl; reflexivity|].
    rewrite mro_lookup_acquire, Ho. simpl.
    eapply step_alone; [simpl; reflexivity|].
    apply rtc_refl.
  - simpl. split.
    + apply elem_of_union_l. by apply elem_of_singleton.
    + by apply mro_lookup_setattr_eq.
Qed.

Lemma X12_unwrapped_window_witness :
  ∃ cfg,
    Threads.steps (spawn "A" [(1, PyObj 8)] (set_context a1 (PyObj 7) library).1) cfg
    ∧ (0 ∈ held (Threads.shared cfg))
    ∧ mro_lookup (Threads.shared cfg) "A" "__call__" = Some (VFunc echo_field).
Proof.
  apply (X12_unwrapped_window "A" 1 (PyObj 8) (set_context a1 (PyObj 7) library).1 0
           (VFunc echo_field)).
  - vm_compute. reflexivity.
  - apply (bool_decide_unpack _). vm_compute. exact I.
  - vm_compute. reflexivity.
  - reflexivity.
Defined.
